(** * Saweria webhook bridge: admission pipeline and donation store

    A shallow embedding of the two request handlers of the repository,
    [api/webhook.js] (inbound donation webhooks) and [api/donations.js]
    (retrieval by the polling game server), and the properties of the
    admission pipeline and of the donation store.

    JavaScript data is modelled as the code has it: strings are sequences
    of UTF-16 code units, values are dynamically typed, an exception is an
    explicit result, and the module-level [Map]s, [Set] and array are the
    fields of one state record that the handlers thread explicitly.  What
    the environment answers while a request is handled (the readings of
    [Date.now()], the random bytes) is an input of the handler; the digests,
    [JSON.stringify] and the numeric coercion of non-primitive values are
    parameters.  The response headers, the console output and the
    development-only test page are left out. *)

From Stdlib Require Import ZArith NArith List Bool Lia String Ascii Sorted.
From Stdlib Require Import DecimalString DecimalN.
From stdpp Require Import gmap sorting.
Import ListNotations.

Local Open Scope string_scope.
Local Open Scope list_scope.
Local Open Scope Z_scope.

(** ** JavaScript strings *)

(** A string is its sequence of UTF-16 code units. *)
Abbreviation JsString := (list N).

(** The code units of a literal written with Latin-1 characters. *)
Definition js (s : string) : JsString :=
  List.map N_of_ascii (list_ascii_of_string s).

(** [WhiteSpace] and [LineTerminator] code points of ECMAScript: the class
    that [\s] matches in a regular expression and that [trim] strips. *)
Definition is_js_space (c : N) : bool :=
  (  (c =? 9) || (c =? 10) || (c =? 11) || (c =? 12) || (c =? 13)
  || (c =? 32) || (c =? 160) || (c =? 5760)
  || ((8192 <=? c) && (c <=? 8202))
  || (c =? 8232) || (c =? 8233) || (c =? 8239) || (c =? 8287)
  || (c =? 12288) || (c =? 65279))%N.

Definition is_ascii_letter (c : N) : bool :=
  (((97 <=? c) && (c <=? 122)) || ((65 <=? c) && (c <=? 90)))%N.

Definition is_ascii_digit (c : N) : bool := ((48 <=? c) && (c <=? 57))%N.

Fixpoint trim_start (s : JsString) : JsString :=
  match s with
  | c :: rest => if is_js_space c then trim_start rest else s
  | [] => []
  end.

(** [String.prototype.trim]. *)
Definition trim (s : JsString) : JsString :=
  rev (trim_start (rev (trim_start s))).

(** [Buffer.from(s)]: the UTF-8 encoding of the string.  A surrogate pair
    encodes one supplementary code point as four bytes; a lone surrogate is
    encoded as U+FFFD. *)
Definition is_high_surrogate (c : N) : bool := ((55296 <=? c) && (c <=? 56319))%N.
Definition is_low_surrogate (c : N) : bool := ((56320 <=? c) && (c <=? 57343))%N.

Definition utf8_3 (c : N) : list N :=
  [224 + c / 4096; 128 + (c / 64) mod 64; 128 + c mod 64]%N.

Definition utf8_4 (cp : N) : list N :=
  [240 + cp / 262144; 128 + (cp / 4096) mod 64;
   128 + (cp / 64) mod 64; 128 + cp mod 64]%N.

Fixpoint Buffer_from (s : JsString) : list N :=
  match s with
  | [] => []
  | c :: rest =>
      if (c <? 128)%N then c :: Buffer_from rest
      else if (c <? 2048)%N then
        [192 + c / 64; 128 + c mod 64]%N ++ Buffer_from rest
      else if is_high_surrogate c then
        match rest with
        | d :: rest' =>
            if is_low_surrogate d
            then utf8_4 (65536 + (c - 55296) * 1024 + (d - 56320))%N
                   ++ Buffer_from rest'
            else utf8_3 65533 ++ Buffer_from rest
        | [] => utf8_3 65533
        end
      else if is_low_surrogate c then utf8_3 65533 ++ Buffer_from rest
      else utf8_3 c ++ Buffer_from rest
  end.

(** Lower-case hexadecimal rendering on a fixed number of digits, as
    [digest('hex')] and [toString('hex')] give for a value of that width. *)
Definition hex_digit (d : N) : N := (if d <? 10 then 48 + d else 87 + d)%N.

Fixpoint hex (width : nat) (n : N) : JsString :=
  match width with
  | O => []
  | S w => hex w (n / 16)%N ++ [hex_digit (n mod 16)%N]
  end.

(** ** JavaScript numbers and values *)

(** Numbers.  The finite numbers of the model are the integers: amounts are
    integer currency units and clock readings are integer milliseconds. *)
Inductive JsNum :=
| NaN
| Infinity (negative : bool)
| Int (z : Z).

(** [x > k] and [x <= k] for a number [x] and an integer literal [k]. *)
Definition num_gt (x : JsNum) (k : Z) : bool :=
  match x with
  | NaN => false
  | Infinity negative => negb negative
  | Int z => k <? z
  end.

Definition num_le (x : JsNum) (k : Z) : bool :=
  match x with
  | NaN => false
  | Infinity negative => negative
  | Int z => z <=? k
  end.

(** [Number.prototype.toString], as a template literal applies it.  The
    integers it is applied to here (an accepted amount, a clock reading)
    are below 10^21, where the rendering is the plain decimal one. *)
Definition decimal (n : N) : JsString :=
  js (NilEmpty.string_of_uint (N.to_uint n)).

Definition Number_toString (x : JsNum) : JsString :=
  match x with
  | NaN => js "NaN"
  | Infinity negative => if negative then js "-Infinity" else js "Infinity"
  | Int z => if z <? 0 then js "-" ++ decimal (Z.to_N (- z)) else decimal (Z.to_N z)
  end.

(** Values, as [JSON.parse] produces them for a request body, and
    [undefined] for an absent one. *)
#[warnings="-register-all"]
Inductive JsValue :=
| VUndefined
| VNull
| VBool (b : bool)
| VNum (x : JsNum)
| VStr (s : JsString)
| VArr (elements : list JsValue)
| VObj (properties : list (JsString * JsValue)).

(** [ToBoolean]. *)
Definition truthy (v : JsValue) : bool :=
  match v with
  | VUndefined | VNull => false
  | VBool b => b
  | VNum NaN => false
  | VNum (Int z) => negb (z =? 0)
  | VNum (Infinity _) => true
  | VStr s => negb (Nat.eqb (length s) 0)
  | VArr _ | VObj _ => true
  end.

Inductive JsType := TUndefined | TObject | TBoolean | TNumber | TString.

Definition typeof (v : JsValue) : JsType :=
  match v with
  | VUndefined => TUndefined
  | VNull | VArr _ | VObj _ => TObject
  | VBool _ => TBoolean
  | VNum _ => TNumber
  | VStr _ => TString
  end.

Definition is_string (v : JsValue) : bool :=
  match typeof v with TString => true | _ => false end.

Definition is_number (v : JsValue) : bool :=
  match typeof v with TNumber => true | _ => false end.

Definition str_eqb (a b : JsString) : bool := bool_decide (a = b).

Fixpoint own_property (props : list (JsString * JsValue)) (name : JsString) : JsValue :=
  match props with
  | [] => VUndefined
  | (k, v) :: rest => if str_eqb k name then v else own_property rest name
  end.

(** Exceptions of the runtime that the handlers can meet. *)
Inductive JsError := TypeError | RangeError.

Inductive Result (A : Type) :=
| Ok (a : A)
| Throw (e : JsError).
Arguments Ok {A} a.
Arguments Throw {A} e.

(** Property read [v.name] for the data properties that the handlers read
    ([donor_name], [amount], [message], [length]).  Reading a property of
    [undefined] or [null] throws. *)
Definition get (v : JsValue) (name : JsString) : Result JsValue :=
  match v with
  | VUndefined | VNull => Throw TypeError
  | VObj props => Ok (own_property props name)
  | VStr s => Ok (if str_eqb name (js "length") then VNum (Int (Z.of_nat (length s))) else VUndefined)
  | VArr l => Ok (if str_eqb name (js "length") then VNum (Int (Z.of_nat (length l))) else VUndefined)
  | VBool _ | VNum _ => Ok VUndefined
  end.

#[export] Instance Result_bind : MBind Result :=
  fun A B k r => match r with Ok a => k a | Throw e => Throw e end.

(** ** The runtime

    What Node.js provides and the repository only calls: the keyed and plain
    SHA-256 digests (as 256-bit numbers), [JSON.stringify] ([None] is its
    [undefined] result), and the numeric coercion of a string, an array or
    an object.  They are parameters of the development. *)
Class Runtime := {
  hmac_sha256 : JsString -> JsString -> N;
  sha256 : JsString -> N;
  JSON_stringify : JsValue -> option JsString;
  ToNumber_coerced : JsValue -> JsNum
}.

Section Validation.
Context {rt : Runtime}.

(** [ToNumber], applied by [<=] and [>] to an operand that is compared with
    a number. *)
Definition ToNumber (v : JsValue) : JsNum :=
  match v with
  | VUndefined => NaN
  | VNull => Int 0
  | VBool b => Int (if b then 1 else 0)
  | VNum x => x
  | VStr _ | VArr _ | VObj _ => ToNumber_coerced v
  end.

Definition js_gt (v : JsValue) (k : Z) : bool := num_gt (ToNumber v) k.
Definition js_le (v : JsValue) (k : Z) : bool := num_le (ToNumber v) k.

(** [Buffer.from(array)] for an array of strings: one byte for each element,
    its number value reduced modulo 256; [NaN] and the infinities give 0. *)
Definition ToUint8 (x : JsNum) : N :=
  match x with
  | Int z => Z.to_N (z mod 256)
  | NaN | Infinity _ => 0%N
  end.

Definition Buffer_from_array (values : list JsString) : list N :=
  List.map (fun value => ToUint8 (ToNumber (VStr value))) values.

(** One character of the class [[a-zA-Z0-9\s_-]]. *)
Definition donor_name_char (c : N) : bool :=
  is_ascii_letter c || is_ascii_digit c || is_js_space c
  || (c =? 95)%N || (c =? 45)%N.

(** [/^[a-zA-Z0-9\s_-]+$/.test(s)]. *)
Definition donor_name_regex_test (s : JsString) : bool :=
  match s with
  | [] => false
  | _ :: _ => forallb donor_name_char s
  end.

(** [validateDonationData(data)] of [webhook.js]. *)
Definition validateDonationData (data : JsValue) : Result bool :=
  if negb (truthy data) then Ok false else
  donor_name ← get data (js "donor_name");
  if negb (truthy donor_name) || negb (is_string donor_name) then Ok false else
  amount ← get data (js "amount");
  if negb (truthy amount) || negb (is_number amount) then Ok false else
  if js_le amount 0 || js_gt amount 100000000 then Ok false else
  name_length ← get donor_name (js "length");
  if js_gt name_length 50 then Ok false else
  if negb (match donor_name with
           | VStr s => donor_name_regex_test s
           | _ => false
           end) then Ok false else
  message ← get data (js "message");
  too_long ← (if truthy message
              then message_length ← get message (js "length");
                   Ok (js_gt message_length 200)
              else Ok false);
  if too_long : bool then Ok false else Ok true.

End Validation.

Definition obj (props : list (string * JsValue)) : JsValue :=
  VObj (List.map (fun kv => (js (fst kv), snd kv)) props).
Definition str (s : string) : JsValue := VStr (js s).
Definition num (z : Z) : JsValue := VNum (Int z).

(** ** The state shared by the two handlers *)

(** A stored donation, the object that [webhook.js] pushes on [donations]. *)
Module Donation.
Record t := {
  id : JsString;
  donor_name : JsString;
  amount : JsNum;
  message : JsString;
  timestamp : Z;
  processed : bool
}.
End Donation.

(** The module-level objects: the two rate-limit maps, the set of recent
    duplicate keys with the [setTimeout] callbacks still pending for it, and
    the [donations] array that [donations.js] reads through
    [webhookHandler.donations]. *)
Record State := {
  webhookRateLimit : gmap (option JsString) (list Z);
  recentDonationIds : gset JsString;
  pendingTimeouts : list JsString;
  donations : list Donation.t;
  robloxRateLimit : gmap JsString (list Z)
}.

Definition initial_state : State :=
  {| webhookRateLimit := ∅; recentDonationIds := ∅; pendingTimeouts := [];
     donations := []; robloxRateLimit := ∅ |}.

Definition set_webhookRateLimit (m : gmap (option JsString) (list Z)) (st : State) : State :=
  {| webhookRateLimit := m; recentDonationIds := recentDonationIds st;
     pendingTimeouts := pendingTimeouts st; donations := donations st;
     robloxRateLimit := robloxRateLimit st |}.

Definition set_recentDonationIds (s : gset JsString) (timeouts : list JsString) (st : State) : State :=
  {| webhookRateLimit := webhookRateLimit st; recentDonationIds := s;
     pendingTimeouts := timeouts; donations := donations st;
     robloxRateLimit := robloxRateLimit st |}.

Definition set_donations (ds : list Donation.t) (st : State) : State :=
  {| webhookRateLimit := webhookRateLimit st; recentDonationIds := recentDonationIds st;
     pendingTimeouts := pendingTimeouts st; donations := ds;
     robloxRateLimit := robloxRateLimit st |}.

Definition set_robloxRateLimit (m : gmap JsString (list Z)) (st : State) : State :=
  {| webhookRateLimit := webhookRateLimit st; recentDonationIds := recentDonationIds st;
     pendingTimeouts := pendingTimeouts st; donations := donations st;
     robloxRateLimit := m |}.

(** [process.env]. *)
Record Env := {
  WEBHOOK_SECRET : option JsString;
  API_KEY : option JsString
}.

(** A header, query parameter or environment variable: [undefined] or a
    string; the empty string is falsy. *)
Definition present (v : option JsString) : bool :=
  match v with
  | Some (_ :: _) => true
  | _ => false
  end.

(** [a || b]. *)
Definition or_else (a b : option JsString) : option JsString :=
  if present a then a else b.

(** What a handler sends: [res.status(s).json(body)] or [res.status(s).end()]. *)
Record PublicDonation := {
  public_id : JsString;
  public_donor_name : JsString;
  public_amount : JsNum;
  public_message : JsString;
  public_timestamp : Z
}.

Inductive Body :=
| NoBody
| ErrorBody (error : JsString)
| AckBody (success : bool) (message : JsString) (donation_id : option JsString)
| DonationsBody (success : bool) (count : nat) (donations : list PublicDonation).

Record Response := { status : Z; json : Body }.

(** [crypto.timingSafeEqual(a, b)]: throws when the byte lengths differ. *)
Definition timingSafeEqual (a b : list N) : Result bool :=
  if Nat.eqb (length a) (length b) then Ok (bool_decide (a = b)) else Throw RangeError.

Definition RATE_LIMIT_WINDOW : Z := 60 * 1000.

(** ** [api/webhook.js] *)

Module Webhook.

Definition MAX_DONATIONS : nat := 100.
Definition DONATION_EXPIRY : Z := 5 * 60 * 1000.
Definition WEBHOOK_RATE_LIMIT : nat := 10.
Definition DUPLICATE_CHECK_WINDOW : Z := 10 * 60 * 1000.

(** The parts of the request that the handler reads. *)
Record Request := {
  method : JsString;
  x_forwarded_for : option JsString;
  remoteAddress : option JsString;
  x_webhook_signature : option JsString;
  x_saweria_signature : option JsString;
  body : JsValue
}.

(** What the environment answers while one request is handled: the four
    readings of [Date.now()], in program order (rate limiter, duplicate key,
    donation timestamp, expiry sweep), and the 16 random bytes, as a
    number. *)
Record Readings := {
  now_limit : Z;
  now_key : Z;
  now_stamp : Z;
  now_sweep : Z;
  randomBytes : N
}.

Section Handler.
Context {rt : Runtime}.

(** [validateWebhookSignature(payload, signature, secret)]. *)
Definition validateWebhookSignature
    (payload : JsValue) (signature secret : option JsString) : Result bool :=
  match signature, secret with
  | Some ((_ :: _) as signature), Some ((_ :: _) as secret) =>
      match JSON_stringify payload with
      | None => Throw TypeError
      | Some text =>
          let calculatedSignature := hex 64 (hmac_sha256 secret text mod 2 ^ 256)%N in
          timingSafeEqual (Buffer_from signature) (Buffer_from calculatedSignature)
      end
  | _, _ => Ok false
  end.

(** [checkRateLimit(ip)]. *)
Definition checkRateLimit (ip : option JsString) (now : Z) (st : State) : bool * State :=
  let requests := default [] (webhookRateLimit st !! ip) in
  let validRequests := List.filter (fun time => now - time <? RATE_LIMIT_WINDOW) requests in
  if (WEBHOOK_RATE_LIMIT <=? length validRequests)%nat then (false, st)
  else (true, set_webhookRateLimit (<[ip := validRequests ++ [now]]> (webhookRateLimit st)) st).

(** [isDuplicate(donationId)]; the deletion is left pending as a timeout. *)
Definition isDuplicate (donationId : JsString) (st : State) : bool * State :=
  if bool_decide (donationId ∈ recentDonationIds st) then (true, st)
  else (false, set_recentDonationIds ({[donationId]} ∪ recentDonationIds st)
                 (pendingTimeouts st ++ [donationId]) st).

(** The callback that [isDuplicate] schedules, run by the event loop once
    [DUPLICATE_CHECK_WINDOW] has passed. *)
Definition timeout_callback (donationId : JsString) (st : State) : State :=
  set_recentDonationIds (recentDonationIds st ∖ {[donationId]}) (pendingTimeouts st) st.

(** [cleanupExpiredDonations()]. *)
Definition cleanupExpiredDonations (now : Z) (st : State) : State :=
  let validDonations :=
    List.filter (fun d => now - Donation.timestamp d <? DONATION_EXPIRY) (donations st) in
  set_donations validDonations st.

(** The donation object that the handler creates.  It is created from
    validated data only, whose donor name is a string and whose amount is a
    number; a truthy message that is not a string has no [trim] method. *)
Definition new_donation (donationData : JsValue) (io : Readings) : Result Donation.t :=
  donor_name ← get donationData (js "donor_name");
  amount ← get donationData (js "amount");
  message ← get donationData (js "message");
  match donor_name, amount with
  | VStr donor_name, VNum amount =>
      trimmed ← (if truthy message
                 then match message with
                      | VStr s => Ok (trim s)
                      | _ => Throw TypeError
                      end
                 else Ok []);
      Ok {| Donation.id := hex 32 (randomBytes io mod 2 ^ 128)%N;
            Donation.donor_name := trim donor_name;
            Donation.amount := amount;
            Donation.message := trimmed;
            Donation.timestamp := now_stamp io;
            Donation.processed := false |}
  | _, _ => Throw TypeError
  end.

(** The duplicate key [`${donor_name}_${amount}_${Date.now()}`], built from
    validated data only. *)
Definition donation_key (donationData : JsValue) (now : Z) : Result JsString :=
  donor_name ← get donationData (js "donor_name");
  amount ← get donationData (js "amount");
  match donor_name, amount with
  | VStr donor_name, VNum amount =>
      Ok (donor_name ++ js "_" ++ Number_toString amount ++ js "_"
            ++ Number_toString (Int now))
  | _, _ => Throw TypeError
  end.

(** [donations.push(donation)], the capacity check with [donations.shift()],
    and the expiry sweep. *)
Definition store_donation (donation : Donation.t) (now : Z) (st : State) : State :=
  let st := set_donations (donations st ++ [donation]) st in
  let st := if (MAX_DONATIONS <? length (donations st))%nat
            then set_donations (tail (donations st)) st
            else st in
  cleanupExpiredDonations now st.

(** The body of the handler's [try] block.  A state change made before an
    exception is thrown stays. *)
Definition handle (env : Env) (req : Request) (io : Readings) (st : State)
  : Result Response * State :=
  let clientIp := or_else (x_forwarded_for req) (remoteAddress req) in
  let '(allowed, st) := checkRateLimit clientIp (now_limit io) st in
  if negb allowed
  then (Ok {| status := 429; json := ErrorBody (js "Too many requests") |}, st) else
  let signature := or_else (x_webhook_signature req) (x_saweria_signature req) in
  let webhookSecret := WEBHOOK_SECRET env in
  match (if present webhookSecret && present signature
         then validateWebhookSignature (body req) signature webhookSecret
         else Ok true) with
  | Throw e => (Throw e, st)
  | Ok false => (Ok {| status := 401; json := ErrorBody (js "Invalid signature") |}, st)
  | Ok true =>
  let donationData := body req in
  match validateDonationData donationData with
  | Throw e => (Throw e, st)
  | Ok false => (Ok {| status := 400; json := ErrorBody (js "Invalid donation data") |}, st)
  | Ok true =>
  match donation_key donationData (now_key io) with
  | Throw e => (Throw e, st)
  | Ok donationId =>
  let '(duplicate, st) := isDuplicate donationId st in
  if duplicate
  then (Ok {| status := 200;
              json := AckBody true (js "Duplicate donation ignored") None |}, st) else
  match new_donation donationData io with
  | Throw e => (Throw e, st)
  | Ok donation =>
  let st := store_donation donation (now_sweep io) st in
  (Ok {| status := 200;
         json := AckBody true (js "Donation received") (Some (Donation.id donation)) |}, st)
  end end end end.

(** [module.exports]: the handler. *)
Definition handler (env : Env) (req : Request) (io : Readings) (st : State)
  : Response * State :=
  if str_eqb (method req) (js "OPTIONS") then ({| status := 200; json := NoBody |}, st)
  else if negb (str_eqb (method req) (js "POST"))
  then ({| status := 405; json := ErrorBody (js "Method not allowed") |}, st)
  else
    match handle env req io st with
    | (Ok response, st) => (response, st)
    | (Throw _, st) =>
        ({| status := 500; json := ErrorBody (js "Internal server error") |}, st)
    end.

End Handler.
End Webhook.

(** ** [api/donations.js] *)

Module Donations.

Definition ROBLOX_RATE_LIMIT : nat := 60.

(** A presented key.  The header is a string; the query parameter is a
    string, or the array of its values when the parameter is repeated in the
    URL. *)
Inductive ApiKey :=
| KeyString (s : JsString)
| KeyArray (values : list JsString).

(** The parts of the request that the handler reads: the method, the
    [x-api-key] header and the [key] query parameter. *)
Record Request := {
  method : JsString;
  x_api_key : option JsString;
  query_key : option ApiKey
}.

(** [req.headers['x-api-key'] || req.query.key]. *)
Definition header_or_query (header : option JsString) (query : option ApiKey)
  : option ApiKey :=
  match header with
  | Some ((_ :: _) as s) => Some (KeyString s)
  | _ => query
  end.

Section Handler.
Context {rt : Runtime}.

(** [validateApiKey(apiKey)]; the [catch] turns the exception of
    [timingSafeEqual] into [false].  An array is truthy, and [Buffer.from]
    takes its elements for bytes. *)
Definition validateApiKey (env : Env) (apiKey : option ApiKey) : bool :=
  match API_KEY env with
  | Some ((_ :: _) as validApiKey) =>
      match apiKey with
      | Some (KeyString ((_ :: _) as apiKey)) =>
          match timingSafeEqual (Buffer_from apiKey) (Buffer_from validApiKey) with
          | Ok equal => equal
          | Throw _ => false
          end
      | Some (KeyArray values) =>
          match timingSafeEqual (Buffer_from_array values) (Buffer_from validApiKey) with
          | Ok equal => equal
          | Throw _ => false
          end
      | _ => false
      end
  | _ => false
  end.

(** [checkRobloxRateLimit(identifier)]. *)
Definition checkRobloxRateLimit (identifier : JsString) (now : Z) (st : State) : bool * State :=
  let requests := default [] (robloxRateLimit st !! identifier) in
  let validRequests := List.filter (fun time => now - time <? RATE_LIMIT_WINDOW) requests in
  if (ROBLOX_RATE_LIMIT <=? length validRequests)%nat then (false, st)
  else (true, set_robloxRateLimit (<[identifier := validRequests ++ [now]]> (robloxRateLimit st)) st).

(** [d.processed = true] on one stored object. *)
Definition mark_processed (d : Donation.t) : Donation.t :=
  {| Donation.id := Donation.id d;
     Donation.donor_name := Donation.donor_name d;
     Donation.amount := Donation.amount d;
     Donation.message := Donation.message d;
     Donation.timestamp := Donation.timestamp d;
     Donation.processed := true |}.

Definition public_view (d : Donation.t) : PublicDonation :=
  {| public_id := Donation.id d;
     public_donor_name := Donation.donor_name d;
     public_amount := Donation.amount d;
     public_message := Donation.message d;
     public_timestamp := Donation.timestamp d |}.

(** The retrieval: the unprocessed donations are filtered out of the shared
    array and each of them is marked.  The filtered objects are the stored
    ones, so the marks show in the array. *)
Definition take_unprocessed (st : State) : list Donation.t * State :=
  let unprocessedDonations :=
    List.filter (fun d => negb (Donation.processed d)) (donations st) in
  let marked :=
    List.map (fun d => if negb (Donation.processed d) then mark_processed d else d)
      (donations st) in
  (unprocessedDonations, set_donations marked st).

(** [module.exports]: the handler.  Nothing in its [try] block throws on a
    key that is a string; [hash.update(apiKey)] throws on a key that is an
    array, and the [catch] answers 500. *)
Definition handler (env : Env) (req : Request) (now : Z) (st : State) : Response * State :=
  if str_eqb (method req) (js "OPTIONS") then ({| status := 200; json := NoBody |}, st)
  else if negb (str_eqb (method req) (js "GET"))
  then ({| status := 405; json := ErrorBody (js "Method not allowed") |}, st)
  else
    let apiKey := header_or_query (x_api_key req) (query_key req) in
    if negb (validateApiKey env apiKey)
    then ({| status := 401; json := ErrorBody (js "Unauthorized") |}, st) else
    match apiKey with
    | Some (KeyString apiKey) =>
        let identifier := firstn 16 (hex 64 (sha256 apiKey mod 2 ^ 256)%N) in
        let '(allowed, st) := checkRobloxRateLimit identifier now st in
        if negb allowed
        then ({| status := 429; json := ErrorBody (js "Too many requests") |}, st) else
        let '(unprocessedDonations, st) := take_unprocessed st in
        ({| status := 200;
            json := DonationsBody true (length unprocessedDonations)
                      (List.map public_view unprocessedDonations) |}, st)
    | _ => ({| status := 500; json := ErrorBody (js "Internal server error") |}, st)
    end.

End Handler.
End Donations.

(** ** The service: both handlers and the timer callbacks over one state *)

Inductive Event :=
| Submit (req : Webhook.Request) (io : Webhook.Readings)
| Poll (req : Donations.Request) (now : Z)
| Timeout (donationId : JsString).

Section Service.
Context {rt : Runtime}.
Variable env : Env.

(** One turn of the event loop: a request is answered, or a timeout runs its
    callback (only if it is pending, and it is then no longer pending).  The
    delay of a timeout is not modelled: a pending callback may run at any
    later turn. *)
Definition step (st : State) (ev : Event) : option Response * State :=
  match ev with
  | Submit req io => let '(response, st) := Webhook.handler env req io st in (Some response, st)
  | Poll req now => let '(response, st) := Donations.handler env req now st in (Some response, st)
  | Timeout donationId =>
      (None,
       if bool_decide (donationId ∈ pendingTimeouts st)
       then let st := Webhook.timeout_callback donationId st in
            set_recentDonationIds (recentDonationIds st)
              (List.filter (fun k => negb (str_eqb k donationId)) (pendingTimeouts st)) st
       else st)
  end.

Fixpoint run (st : State) (evs : list Event) : list (option Response) * State :=
  match evs with
  | [] => ([], st)
  | ev :: evs =>
      let '(response, st) := step st ev in
      let '(responses, st) := run st evs in
      (response :: responses, st)
  end.

End Service.

(** * Statements

    The notions in which the properties below are stated. *)

(** ** The payload validator *)

(** The field of a payload: the property of a record, [undefined] when the
    property is missing or the payload is not a record. *)
Definition field (data : JsValue) (name : string) : JsValue :=
  match data with
  | VObj props => own_property props (js name)
  | _ => VUndefined
  end.

(** The characters of [[A-Za-z0-9 _-]], the class as the specification
    writes it. *)
Definition plain_name_char (c : N) : Prop :=
  ((97 <= c <= 122) \/ (65 <= c <= 90) \/ (48 <= c <= 57)
   \/ c = 32 \/ c = 95 \/ c = 45)%N.

(** The same class with every white-space character in place of the
    space. *)
Definition name_char (c : N) : Prop :=
  ((97 <= c <= 122) \/ (65 <= c <= 90) \/ (48 <= c <= 57)
   \/ is_js_space c = true \/ c = 95 \/ c = 45)%N.

(** A donor name is rejected when it is missing or not a string, empty,
    longer than 50 code units, or holds a character outside the class. *)
Definition name_rejected (v : JsValue) : Prop :=
  match v with
  | VStr s => s = [] \/ (50 < length s)%nat \/ Exists (fun c => ~ name_char c) s
  | _ => True
  end.

(** An amount is rejected when it is missing or not a number, [NaN] or
    infinite, not positive, or above the ceiling. *)
Definition amount_rejected (v : JsValue) : Prop :=
  match v with
  | VNum (Int z) => z <= 0 \/ 100000000 < z
  | _ => True
  end.

Definition name_acceptableb (v : JsValue) : bool :=
  match v with
  | VStr s => donor_name_regex_test s && (length s <=? 50)%nat
  | _ => false
  end.

Definition amount_acceptableb (v : JsValue) : bool :=
  match v with
  | VNum (Int z) => (0 <? z) && (z <=? 100000000)
  | _ => false
  end.

Section ValidatorStatements.
Context {rt : Runtime}.

(** The length of a message exceeds 200: the number of code units of a
    string, the number of elements of an array, the [length] property of a
    record. *)
Definition message_too_long (v : JsValue) : Prop :=
  match v with
  | VStr s => (200 < length s)%nat
  | VArr l => (200 < length l)%nat
  | VObj props => js_gt (own_property props (js "length")) 200 = true
  | _ => False
  end.

Definition message_too_longb (v : JsValue) : bool :=
  truthy v &&
  match v with
  | VStr s => (200 <? length s)%nat
  | VArr l => (200 <? length l)%nat
  | VObj props => js_gt (own_property props (js "length")) 200
  | _ => false
  end.

End ValidatorStatements.

(** ** Sample inputs

    A runtime on which the model can be run, for the instances at which the
    theorems with hypotheses are applied: every digest is zero. *)
Definition sample_runtime : Runtime :=
  {| hmac_sha256 := fun _ _ => 0%N;
     sha256 := fun _ => 0%N;
     JSON_stringify := fun v => match v with VUndefined => None | _ => Some (js "{}") end;
     ToNumber_coerced := fun _ => NaN |}.

Definition alice_5000 : JsValue :=
  obj [("donor_name", str "Alice"); ("amount", num 5000)].

(** A runtime that also converts the strings of decimal digits to
    numbers. *)
Definition digits_value (s : JsString) : Z :=
  fold_left (fun value c => 10 * value + (Z.of_N c - 48)) s 0.

Definition decimal_runtime : Runtime :=
  {| hmac_sha256 := fun _ _ => 0%N;
     sha256 := fun _ => 0%N;
     JSON_stringify := fun v => match v with VUndefined => None | _ => Some (js "{}") end;
     ToNumber_coerced := fun v =>
       match v with
       | VStr s => if forallb is_ascii_digit s then Int (digits_value s) else NaN
       | _ => NaN
       end |}.

(** ** The webhook pipeline *)

Definition too_many_requests : Response :=
  {| status := 429; json := ErrorBody (js "Too many requests") |}.
Definition invalid_signature : Response :=
  {| status := 401; json := ErrorBody (js "Invalid signature") |}.
Definition invalid_donation_data : Response :=
  {| status := 400; json := ErrorBody (js "Invalid donation data") |}.
Definition duplicate_ignored : Response :=
  {| status := 200; json := AckBody true (js "Duplicate donation ignored") None |}.
Definition donation_received (donation_id : JsString) : Response :=
  {| status := 200; json := AckBody true (js "Donation received") (Some donation_id) |}.
Definition unauthorized : Response :=
  {| status := 401; json := ErrorBody (js "Unauthorized") |}.
Definition internal_server_error : Response :=
  {| status := 500; json := ErrorBody (js "Internal server error") |}.

(** The origin that the submission limiter is keyed by, and the signature
    that a submission presents. *)
Definition client_ip (req : Webhook.Request) : option JsString :=
  or_else (Webhook.x_forwarded_for req) (Webhook.remoteAddress req).

Definition presented_signature (req : Webhook.Request) : option JsString :=
  or_else (Webhook.x_webhook_signature req) (Webhook.x_saweria_signature req).

(** The key that a retrieval presents. *)
Definition presented_key (req : Donations.Request) : option Donations.ApiKey :=
  Donations.header_or_query (Donations.x_api_key req) (Donations.query_key req).

(** The state after a duplicate key has been recorded. *)
Definition record_key (key : JsString) (st : State) : State :=
  set_recentDonationIds ({[key]} ∪ recentDonationIds st) (pendingTimeouts st ++ [key]) st.

Section WebhookStatements.
Context {rt : Runtime}.

(** The outcome of the signature step: the verifier's verdict when a secret
    is configured and a signature is presented, a pass otherwise. *)
Definition signature_verdict (env : Env) (req : Webhook.Request) : Result bool :=
  if present (WEBHOOK_SECRET env) && present (presented_signature req)
  then Webhook.validateWebhookSignature (Webhook.body req)
         (presented_signature req) (WEBHOOK_SECRET env)
  else Ok true.

End WebhookStatements.

(** Sample submissions and retrievals. *)
Definition post (ip : string) (signature : option JsString) (data : JsValue) : Webhook.Request :=
  {| Webhook.method := js "POST";
     Webhook.x_forwarded_for := Some (js ip);
     Webhook.remoteAddress := None;
     Webhook.x_webhook_signature := signature;
     Webhook.x_saweria_signature := None;
     Webhook.body := data |}.

Definition at_time (t : Z) (random : N) : Webhook.Readings :=
  {| Webhook.now_limit := t; Webhook.now_key := t; Webhook.now_stamp := t;
     Webhook.now_sweep := t; Webhook.randomBytes := random |}.

Definition env_without_secret : Env :=
  {| WEBHOOK_SECRET := None; API_KEY := Some (js "k3y") |}.

Definition env_with_secret : Env :=
  {| WEBHOOK_SECRET := Some (js "s3cret"); API_KEY := Some (js "k3y") |}.

Definition get_donations : Donations.Request :=
  {| Donations.method := js "GET";
     Donations.x_api_key := Some (js "k3y");
     Donations.query_key := None |}.

(** A retrieval with the query [?key=107&key=51&key=121]: the decimal byte
    values of [k3y]. *)
Definition get_donations_repeated_key : Donations.Request :=
  {| Donations.method := js "GET";
     Donations.x_api_key := None;
     Donations.query_key := Some (Donations.KeyArray [js "107"; js "51"; js "121"]) |}.

(** A state in which the origin 10.0.0.1 has used up its ten submissions of
    the current minute. *)
Definition busy_state : State :=
  set_webhookRateLimit {[ Some (js "10.0.0.1") := [1; 2; 3; 4; 5; 6; 7; 8; 9; 10] ]}
    initial_state.


(** ** The donation store *)

(** The store after the capacity check, and after the expiry sweep. *)
Definition capped (ds : list Donation.t) : list Donation.t :=
  if (100 <? length ds)%nat then tail ds else ds.

Definition fresh (now : Z) (d : Donation.t) : Prop :=
  now - Donation.timestamp d < 5 * 60 * 1000.

Definition unprocessed (d : Donation.t) : Prop := Donation.processed d = false.

#[export] Instance fresh_dec now d : Decision (fresh now d).
Proof. unfold fresh. apply _. Defined.

#[export] Instance unprocessed_dec d : Decision (unprocessed d).
Proof. unfold unprocessed. apply _. Defined.

(** The readings of the clock that an event makes, in program order.  A run
    is chronological when the clock never goes back along it. *)
Definition clock_readings (ev : Event) : list Z :=
  match ev with
  | Submit _ io =>
      [Webhook.now_limit io; Webhook.now_key io; Webhook.now_stamp io; Webhook.now_sweep io]
  | Poll _ now => [now]
  | Timeout _ => []
  end.

Definition chronological (evs : list Event) : Prop :=
  Sorted Z.le (flat_map clock_readings evs).

(** The storage identifier that a submission gets if it is admitted. *)
Definition issued_id (io : Webhook.Readings) : JsString :=
  hex 32 (Webhook.randomBytes io mod 2 ^ 128)%N.

Definition issued_ids (evs : list Event) : list JsString :=
  flat_map (fun ev => match ev with Submit _ io => [issued_id io] | _ => [] end) evs.

(** The donations that a response delivers to the consumer, and the
    identifiers delivered over a run. *)
Definition delivered (response : option Response) : list PublicDonation :=
  match response with
  | Some {| json := DonationsBody _ _ ds |} => ds
  | _ => []
  end.

Definition delivered_ids (responses : list (option Response)) : list JsString :=
  flat_map (fun response => List.map public_id (delivered response)) responses.

Definition is_received (response : option Response) : bool :=
  match response with
  | Some {| status := 200; json := AckBody true _ (Some _) |} => true
  | _ => false
  end.


(** [d.processed = true] through the filtered alias: an unprocessed stored
    donation is marked, a processed one is left as it is. *)
Definition mark (d : Donation.t) : Donation.t :=
  if negb (Donation.processed d) then Donations.mark_processed d else d.

(** The [i]-th of a series of sample submissions: each from an origin of its
    own, one millisecond after the other. *)
Definition sample_submission (i : nat) : Webhook.Request * Webhook.Readings :=
  ({| Webhook.method := js "POST";
      Webhook.x_forwarded_for := Some (js "10.0.0." ++ decimal (N.of_nat i));
      Webhook.remoteAddress := None;
      Webhook.x_webhook_signature := None;
      Webhook.x_saweria_signature := None;
      Webhook.body := alice_5000 |},
   at_time (1000 + Z.of_nat i) (N.of_nat i)).

(** Donations in the order of their admission times. *)
Definition by_time (a b : Donation.t) : Prop :=
  Donation.timestamp a <= Donation.timestamp b.

(** ** Rate limiting over a run *)

(** A timestamp is within the trailing window of a clock reading. *)
Definition within (now time : Z) : Prop := now - time < 60 * 1000.

(** A timestamp lies in the window of 60 seconds that ends at [t]. *)
Definition in_window (t time : Z) : Prop := t - 60 * 1000 < time <= t.

#[global] Typeclasses Opaque within in_window.

#[export] Instance within_dec now time : Decision (within now time).
Proof. unfold within. apply _. Defined.

#[export] Instance in_window_dec t time : Decision (in_window t time).
Proof. unfold in_window. apply _. Defined.

(** The identity that the retrieval limiter is keyed by. *)
Section LimiterStatements.
Context {rt : Runtime}.
Variable env : Env.

Definition poll_identifier (req : Donations.Request) : JsString :=
  firstn 16
    (hex 64 (sha256 (match presented_key req with
                     | Some (Donations.KeyString apiKey) => apiKey
                     | _ => []
                     end)
             mod 2 ^ 256)%N).

(** The clock reading of a submission of the origin [ip] that the limiter
    let through: a POST that is not answered 429. *)
Definition passed_limiter (ev : Event) (response : option Response) (ip : option JsString)
  : list Z :=
  match ev, response with
  | Submit req io, Some r =>
      if str_eqb (Webhook.method req) (js "POST")
         && bool_decide (client_ip req = ip)
         && negb (status r =? 429)
      then [Webhook.now_limit io] else []
  | _, _ => []
  end.

(** The clock reading of a retrieval under the identity [identifier] that
    was served: answered with donations. *)
Definition served_poll (ev : Event) (response : option Response) (identifier : JsString)
  : list Z :=
  match ev, response with
  | Poll req now, Some {| json := DonationsBody _ _ _ |} =>
      if bool_decide (poll_identifier req = identifier) then [now] else []
  | _, _ => []
  end.

(** The readings collected over a run. *)
Fixpoint collect (pick : Event -> option Response -> list Z) (st : State) (evs : list Event)
  : list Z :=
  match evs with
  | [] => []
  | ev :: evs =>
      let '(response, st) := step env st ev in
      pick ev response ++ collect pick st evs
  end.

End LimiterStatements.


(** The stored window [stored] agrees with the history [A] of the calls let
    through, on every window that ends at [last] or later. *)
Definition tracks (last : Z) (stored A : list Z) : Prop :=
  forall now, last <= now -> filter (within now) stored = filter (within now) A.

(** Each call of [L] was let through with fewer than [limit] earlier calls
    in its trailing window, [A] being the calls before [L]. *)
Fixpoint bounded_from (limit : nat) (A L : list Z) : Prop :=
  match L with
  | [] => True
  | m :: L' => (length (filter (within m) A) < limit)%nat /\ bounded_from limit (A ++ [m]) L'
  end.

(** Twelve submissions of one origin, one millisecond apart, and a
    retrieval. *)
Definition burst : list Event :=
  List.map (fun i => Submit (post "10.0.0.1" None alice_5000)
                       (at_time (1000 + Z.of_nat i) (N.of_nat i)))
    (seq 0 12)
  ++ [Poll get_donations 2000].
(** ** Stored and delivered donations *)

(** A lower-case hexadecimal digit. *)
Definition hex_char (c : N) : Prop := ((48 <= c <= 57) \/ (97 <= c <= 102))%N.

(** A string that neither starts nor ends with a white-space character. *)
Definition trimmed (s : JsString) : Prop :=
  (forall c, head s = Some c -> is_js_space c = false)
  /\ (forall c, last s = Some c -> is_js_space c = false).

(** The form of a donation as the consumer sees it. *)
Definition sanitized (p : PublicDonation) : Prop :=
  length (public_id p) = 32%nat /\ Forall hex_char (public_id p)
  /\ (length (public_donor_name p) <= 50)%nat
  /\ Forall name_char (public_donor_name p) /\ trimmed (public_donor_name p)
  /\ (exists z, public_amount p = Int z /\ 0 < z <= 100000000)
  /\ (length (public_message p) <= 200)%nat /\ trimmed (public_message p).

(** The message that is stored for a payload. *)
Definition stored_message (data : JsValue) : JsString :=
  match field data "message" with
  | VStr s => trim s
  | _ => []
  end.

(** A sample payload with surrounding white space, and one whose message
    is a number. *)
Definition padded_alice : JsValue :=
  obj [("donor_name", str "  Alice "); ("amount", num 5000); ("message", str " hi  ")].

Definition alice_numeric_message : JsValue :=
  obj [("donor_name", str "Alice"); ("amount", num 5000); ("message", num 7)].

Definition blank_donor : JsValue :=
  obj [("donor_name", str "   "); ("amount", num 100)].

Section AdmissionStatements.
Context {rt : Runtime}.
Variable env : Env.

(** The event is a submission that was admissible and created the donation
    that the consumer sees as [p]: a POST whose signature step passed and
    whose payload the validator accepted. *)
Definition admits (ev : Event) (p : PublicDonation) : Prop :=
  match ev with
  | Submit req io =>
      Webhook.method req = js "POST"
      /\ signature_verdict env req = Ok true
      /\ validateDonationData (Webhook.body req) = Ok true
      /\ exists donation,
           Webhook.new_donation (Webhook.body req) io = Ok donation
           /\ p = Donations.public_view donation
  | _ => False
  end.

End AdmissionStatements.
(** * Proofs *)

(** ** The payload validator *)

Section ValidatorFacts.
Context {rt : Runtime}.

Lemma donor_name_char_iff c : donor_name_char c = true <-> name_char c.
Proof.
  unfold donor_name_char, name_char, is_ascii_letter, is_ascii_digit.
  rewrite !orb_true_iff, !andb_true_iff, !N.leb_le, !N.eqb_eq. tauto.
Qed.

Lemma donor_name_regex_test_iff s :
  donor_name_regex_test s = true <-> s <> [] /\ Forall name_char s.
Proof.
  destruct s as [|c s].
  - simpl. split; [discriminate | intros [H _]; congruence].
  - unfold donor_name_regex_test. rewrite forallb_forall, Forall_forall.
    split.
    + intros H. split; [discriminate |].
      intros x Hx. apply donor_name_char_iff, H. now apply list_elem_of_In.
    + intros [_ H] x Hx. apply donor_name_char_iff, H. now apply list_elem_of_In.
Qed.

Lemma get_object props name : get (VObj props) name = Ok (own_property props name).
Proof. reflexivity. Qed.

Lemma validate_not_object data :
  (forall props, data <> VObj props) -> validateDonationData data = Ok false.
Proof.
  intros H. destruct data as [| |b|x|s|l|props]; try reflexivity.
  - now destruct b.
  - unfold validateDonationData. now destruct (truthy (VNum x)).
  - unfold validateDonationData. now destruct (truthy (VStr s)).
  - now specialize (H props).
Qed.

Lemma get_string_length s :
  get (VStr s) (js "length") = Ok (VNum (Int (Z.of_nat (length s)))).
Proof. reflexivity. Qed.

Lemma get_array_length l :
  get (VArr l) (js "length") = Ok (VNum (Int (Z.of_nat (length l)))).
Proof. reflexivity. Qed.

Lemma js_gt_length (n : nat) (k : nat) :
  js_gt (VNum (Int (Z.of_nat n))) (Z.of_nat k) = (k <? n)%nat.
Proof.
  unfold js_gt, ToNumber, num_gt.
  destruct (Nat.ltb_spec k n); [apply Z.ltb_lt | apply Z.ltb_ge]; lia.
Qed.

(** The length test on the message, as the validator evaluates it. *)
Lemma message_length_test m :
  (if truthy m
   then message_length ← get m (js "length"); Ok (js_gt message_length 200)
   else Ok false) = Ok (message_too_longb m).
Proof.
  unfold message_too_longb.
  destruct m as [| |b|x|s|l|ps]; try reflexivity.
  - now destruct b.
  - now destruct (truthy (VNum x)).
  - destruct (truthy (VStr s)); [|reflexivity].
    rewrite get_string_length. cbn [mbind Result_bind andb].
    now rewrite (js_gt_length _ 200).
  - cbn [truthy andb]. rewrite get_array_length. cbn [mbind Result_bind].
    now rewrite (js_gt_length _ 200).
Qed.

Lemma validate_object_bool props :
  validateDonationData (VObj props) =
  Ok (name_acceptableb (own_property props (js "donor_name"))
      && amount_acceptableb (own_property props (js "amount"))
      && negb (message_too_longb (own_property props (js "message")))).
Proof.
  unfold validateDonationData. rewrite !get_object.
  cbn [truthy negb mbind Result_bind].
  rewrite message_length_test. cbn [mbind Result_bind].
  destruct (own_property props (js "donor_name")) as [| |b|x|s|l|ps]; try reflexivity.
  - now destruct b.
  - destruct x as [|neg|z]; try reflexivity. cbn. now destruct (z =? 0).
  - destruct s as [|c s]; [reflexivity|].
    rewrite get_string_length. cbn [mbind Result_bind].
    rewrite (js_gt_length _ 50).
    cbn [truthy length Nat.eqb negb is_string typeof orb].
    destruct (own_property props (js "amount")) as [| |b|x|s'|l|ps].
    all: cbn [truthy negb is_number typeof orb andb name_acceptableb amount_acceptableb].
    all: rewrite ?andb_false_r; try reflexivity.
    + now destruct b.
    + destruct x as [|neg|z]; cbn [truthy negb orb js_le js_gt ToNumber num_le num_gt];
        rewrite ?andb_false_r; try reflexivity.
      * destruct neg; reflexivity.
      * destruct (Z.eqb_spec z 0) as [->|Hz].
        { replace ((0 <? 0) && (0 <=? 100000000)) with false by reflexivity.
          now rewrite andb_false_r. }
        cbn [negb].
        destruct (Z.leb_spec z 0), (Z.ltb_spec 100000000 z), (Z.ltb_spec 0 z),
          (Z.leb_spec z 100000000); try lia; cbn [orb andb];
          rewrite ?andb_false_r; try reflexivity.
        cbn [length].
        destruct (Nat.ltb_spec 50 (S (length s))), (Nat.leb_spec (S (length s)) 50);
          try lia; rewrite ?andb_false_r, ?andb_true_r; cbn [andb].
        -- reflexivity.
        -- destruct (donor_name_regex_test (c :: s)); cbn [negb andb]; [|reflexivity].
           now destruct (message_too_longb _).
    + now destruct (negb _).
Qed.

Lemma name_acceptableb_false v : name_acceptableb v = false <-> name_rejected v.
Proof.
  destruct v as [| |b|x|s|l|ps]; try (cbn; tauto).
  unfold name_acceptableb, name_rejected.
  rewrite andb_false_iff, Nat.leb_gt.
  destruct (donor_name_regex_test s) eqn:E.
  - apply donor_name_regex_test_iff in E as [Hne Hall].
    split; [intros [?|?]; [discriminate | tauto] |].
    intros [->|[?|Hex]]; [congruence | tauto |].
    exfalso. apply Exists_exists in Hex as [c [Hc Hn]].
    rewrite Forall_forall in Hall. apply Hn, Hall, Hc.
  - split; [|tauto]. intros _.
    destruct s as [|c s]; [now left|]. right; right.
    apply not_true_iff_false in E. rewrite donor_name_regex_test_iff in E.
    apply neg_Forall_Exists_neg.
    + intros x. destruct (donor_name_char x) eqn:Ex.
      * left. now apply donor_name_char_iff.
      * right. intros Hx. apply donor_name_char_iff in Hx. congruence.
    + intros Hall. apply E. split; [discriminate | exact Hall].
Qed.

Lemma amount_acceptableb_false v : amount_acceptableb v = false <-> amount_rejected v.
Proof.
  destruct v as [| |b|x|s|l|ps]; try (cbn; tauto).
  destruct x as [|neg|z]; try (cbn; tauto).
  unfold amount_acceptableb, amount_rejected.
  rewrite andb_false_iff, Z.ltb_ge, Z.leb_gt. tauto.
Qed.

Lemma message_too_longb_true v :
  message_too_longb v = true <-> truthy v = true /\ message_too_long v.
Proof.
  unfold message_too_longb. rewrite andb_true_iff.
  destruct v as [| |b|x|s|l|ps]; cbn [message_too_long];
    rewrite ?Nat.ltb_lt; try tauto; split; intros [_ H]; try discriminate; tauto.
Qed.

End ValidatorFacts.

(** C8 (as amended): the validator never throws, and it rejects a payload
    exactly when the payload is not a record, the donor name is missing, not
    a string, empty, longer than 50 code units or holds a character that is
    neither a letter, a digit, an underscore, a hyphen nor a white-space
    character, the amount is missing, not a number, not positive or above
    100,000,000, or the message is truthy and its length exceeds 200.  The
    three sample payloads are rejected, rejected and accepted. *)
Theorem validateDonationData_rejects_iff (rt : Runtime) (data : JsValue) :
  (exists verdict, validateDonationData data = Ok verdict)
  /\ (validateDonationData data = Ok false <->
        (forall props, data <> VObj props)
        \/ name_rejected (field data "donor_name")
        \/ amount_rejected (field data "amount")
        \/ (truthy (field data "message") = true
            /\ message_too_long (field data "message")))
  /\ validateDonationData
       (obj [("donor_name", VStr (js "Al!ce")); ("amount", VNum (Int 100))]) = Ok false
  /\ validateDonationData
       (obj [("donor_name", VStr (js "Alice")); ("amount", VNum (Int 0))]) = Ok false
  /\ validateDonationData
       (obj [("donor_name", VStr (js "Alice")); ("amount", VNum (Int 5000))]) = Ok true.
Proof.
  split; [|split; [|repeat split; reflexivity]].
  - destruct data as [| |b|x|s|l|props];
      try (rewrite validate_not_object by discriminate; eauto).
    rewrite validate_object_bool. eauto.
  - destruct data as [| |b|x|s|l|props];
      try (rewrite validate_not_object by discriminate;
           split; [intros _; left; discriminate | reflexivity]).
    rewrite validate_object_bool. cbn [field].
    rewrite <- name_acceptableb_false, <- amount_acceptableb_false,
      <- message_too_longb_true.
    split.
    + intros H. injection H as H. right.
      apply andb_false_iff in H as [H|H].
      * apply andb_false_iff in H. tauto.
      * apply negb_false_iff in H. tauto.
    + intros [H|[H|[H|H]]].
      * now specialize (H props).
      * now rewrite H.
      * now rewrite H, andb_false_r.
      * now rewrite H, andb_false_r.
Qed.

(** C8, counterexample: a donor name with a TAB between two letters is
    accepted, although TAB is outside [[A-Za-z0-9 _-]]. *)
Lemma validateDonationData_accepts_tab :
  (forall rt : Runtime,
     validateDonationData
       (obj [("donor_name", VStr [65; 9; 66]%N); ("amount", VNum (Int 100))]) = Ok true)
  /\ ~ Forall plain_name_char [65; 9; 66]%N.
Proof.
  split; [reflexivity|].
  intros H. apply Forall_cons_iff in H as [_ H]. apply Forall_cons_iff in H as [H _].
  unfold plain_name_char in H. lia.
Qed.

(** ** The sliding-window limiters *)

Lemma filter_window (now window : Z) (requests : list Z) :
  List.filter (fun time => now - time <? window) requests
  = filter (fun time => now - time < window) requests.
Proof.
  induction requests as [|t requests IH]; [reflexivity|].
  cbn [List.filter]. rewrite filter_cons, IH.
  destruct (Z.ltb_spec (now - t) window); destruct (decide (now - t < window)); try lia; reflexivity.
Qed.

(** C9: each limiter prunes the stored timestamps of the identity to those
    less than 60 seconds old; with 10 (submissions) or 60 (retrievals) of them
    left the call is rejected and the state is unchanged; otherwise the
    current time is appended to the pruned sequence, which is stored back,
    and the call is allowed. *)
Theorem rate_limiters_sliding_window (now : Z) (st : State) :
  (forall ip : option JsString,
     let pruned := filter (fun time => now - time < 60 * 1000)
                     (default [] (webhookRateLimit st !! ip)) in
     Webhook.checkRateLimit ip now st =
       if decide (10 <= length pruned)%nat then (false, st)
       else (true, set_webhookRateLimit
                     (<[ip := pruned ++ [now]]> (webhookRateLimit st)) st))
  /\ (forall identifier : JsString,
        let pruned := filter (fun time => now - time < 60 * 1000)
                        (default [] (robloxRateLimit st !! identifier)) in
        Donations.checkRobloxRateLimit identifier now st =
          if decide (60 <= length pruned)%nat then (false, st)
          else (true, set_robloxRateLimit
                        (<[identifier := pruned ++ [now]]> (robloxRateLimit st)) st)).
Proof.
  split.
  - intros ip pruned. unfold Webhook.checkRateLimit.
    rewrite (filter_window now RATE_LIMIT_WINDOW). unfold RATE_LIMIT_WINDOW. fold pruned.
    unfold Webhook.WEBHOOK_RATE_LIMIT.
    destruct (Nat.leb_spec 10 (length pruned)); destruct (decide (10 <= length pruned)%nat);
      try lia; reflexivity.
  - intros identifier pruned. unfold Donations.checkRobloxRateLimit.
    rewrite (filter_window now RATE_LIMIT_WINDOW). unfold RATE_LIMIT_WINDOW. fold pruned.
    unfold Donations.ROBLOX_RATE_LIMIT.
    destruct (Nat.leb_spec 60 (length pruned)); destruct (decide (60 <= length pruned)%nat);
      try lia; reflexivity.
Qed.

(** ** Digests, buffers and the constant-time comparison *)

Lemma length_hex width n : length (hex width n) = width.
Proof.
  revert n. induction width as [|w IH]; intros n; [reflexivity|].
  cbn [hex]. rewrite length_app, IH. cbn. lia.
Qed.

Lemma hex_digit_ascii d : (d < 16 -> hex_digit d < 128)%N.
Proof. unfold hex_digit. destruct (N.ltb_spec d 10); lia. Qed.

Lemma hex_ascii width n : Forall (fun c => (c < 128)%N) (hex width n).
Proof.
  revert n. induction width as [|w IH]; intros n; [constructor|].
  cbn [hex]. apply Forall_app. split; [apply IH|].
  constructor; [|constructor]. apply hex_digit_ascii, N.mod_lt. lia.
Qed.

Lemma Buffer_from_ascii s : Forall (fun c => (c < 128)%N) s -> Buffer_from s = s.
Proof.
  induction 1 as [|c s Hc _ IH]; [reflexivity|].
  cbn [Buffer_from]. apply N.ltb_lt in Hc. now rewrite Hc, IH.
Qed.

Lemma timingSafeEqual_length_mismatch a b :
  length a <> length b -> timingSafeEqual a b = Throw RangeError.
Proof.
  intros H. unfold timingSafeEqual. now apply Nat.eqb_neq in H as ->.
Qed.

Lemma timingSafeEqual_same_length a b :
  length a = length b -> timingSafeEqual a b = Ok (bool_decide (a = b)).
Proof.
  intros H. unfold timingSafeEqual. now apply Nat.eqb_eq in H as ->.
Qed.

Section VerifierFacts.
Context {rt : Runtime}.

Lemma verifier_length_mismatch (payload : JsValue) (signature secret : JsString) :
  signature <> [] -> secret <> [] ->
  length (Buffer_from signature) <> 64%nat ->
  exists e, Webhook.validateWebhookSignature payload (Some signature) (Some secret) = Throw e.
Proof.
  intros Hsig Hsec Hlen. unfold Webhook.validateWebhookSignature.
  destruct signature as [|c signature]; [congruence|].
  destruct secret as [|k secret]; [congruence|].
  destruct (JSON_stringify payload) as [text|]; [|eauto].
  rewrite timingSafeEqual_length_mismatch; [eauto|].
  rewrite (Buffer_from_ascii (hex 64 _)) by apply hex_ascii.
  now rewrite length_hex.
Qed.

Lemma present_cons (s : JsString) : s <> [] -> present (Some s) = true.
Proof. destruct s; [congruence | reflexivity]. Qed.

End VerifierFacts.

(** C2 (the code departs from it): a presented signature whose byte length is
    not the 64 of a hexadecimal SHA-256 digest makes the verifier throw, it
    does not return false; a submission that passed the rate limit is then
    answered 500. *)
Theorem validateWebhookSignature_throws_on_length_mismatch
    (rt : Runtime) (env : Env) (req : Webhook.Request) (io : Webhook.Readings) (st : State)
    (signature secret : JsString) :
  presented_signature req = Some signature -> WEBHOOK_SECRET env = Some secret ->
  signature <> [] -> secret <> [] ->
  length (Buffer_from signature) <> 64%nat ->
  (exists e, Webhook.validateWebhookSignature (Webhook.body req)
               (Some signature) (Some secret) = Throw e)
  /\ (Webhook.method req = js "POST" ->
      fst (Webhook.checkRateLimit (client_ip req) (Webhook.now_limit io) st) = true ->
      status (fst (Webhook.handler env req io st)) = 500).
Proof.
  intros Hpresented Hsecret Hsig Hsec Hlen.
  destruct (verifier_length_mismatch (Webhook.body req) signature secret Hsig Hsec Hlen)
    as [e He].
  split; [eauto|].
  intros Hpost Hallowed. unfold Webhook.handler, Webhook.handle.
  fold (client_ip req) (presented_signature req).
  rewrite Hpost.
  destruct (Webhook.checkRateLimit (client_ip req) (Webhook.now_limit io) st)
    as [allowed st1].
  cbn [fst] in Hallowed. subst allowed.
  rewrite Hpresented, Hsecret, !present_cons, He by assumption.
  reflexivity.
Qed.

(** C2, instance: the signature [abc] against the secret [s3cret]. *)
Lemma validateWebhookSignature_throws_on_abc :
  let req := post "10.0.0.1" (Some (js "abc")) alice_5000 in
  (exists e, @Webhook.validateWebhookSignature sample_runtime (Webhook.body req)
               (Some (js "abc")) (Some (js "s3cret")) = Throw e)
  /\ (Webhook.method req = js "POST" ->
      fst (Webhook.checkRateLimit (client_ip req) 1000 initial_state) = true ->
      status (fst (@Webhook.handler sample_runtime env_with_secret req (at_time 1000 1)
                     initial_state)) = 500).
Proof.
  apply (validateWebhookSignature_throws_on_length_mismatch sample_runtime env_with_secret
           (post "10.0.0.1" (Some (js "abc")) alice_5000) (at_time 1000 1) initial_state
           (js "abc") (js "s3cret")).
  - reflexivity.
  - reflexivity.
  - discriminate.
  - discriminate.
  - vm_compute. lia.
Defined.

(** ** The retrieval credential *)

(** C10: without a configured credential the check is false for every
    presented key and a retrieval is answered 401 with the state untouched;
    a presented key whose byte length differs from the configured one makes
    [timingSafeEqual] throw, which the check turns into false, for a string
    and for the array of a repeated parameter alike. *)
Theorem validateApiKey_fails_closed (rt : Runtime) (env : Env) :
  (present (API_KEY env) = false ->
     (forall apiKey, Donations.validateApiKey env apiKey = false)
     /\ (forall req now st,
           Donations.method req = js "GET" ->
           Donations.handler env req now st
           = (unauthorized, st)))
  /\ (forall apiKey validApiKey,
        API_KEY env = Some validApiKey ->
        length (Buffer_from apiKey) <> length (Buffer_from validApiKey) ->
        (apiKey <> [] -> validApiKey <> [] ->
           timingSafeEqual (Buffer_from apiKey) (Buffer_from validApiKey) = Throw RangeError)
        /\ Donations.validateApiKey env (Some (Donations.KeyString apiKey)) = false)
  /\ (forall values validApiKey,
        API_KEY env = Some validApiKey ->
        length (Buffer_from_array values) <> length (Buffer_from validApiKey) ->
        Donations.validateApiKey env (Some (Donations.KeyArray values)) = false).
Proof.
  split; [|split].
  - intros Hnone.
    assert (Hall : forall apiKey, Donations.validateApiKey env apiKey = false).
    { intros apiKey. unfold Donations.validateApiKey.
      destruct (API_KEY env) as [[|c k]|]; try reflexivity. discriminate. }
    split; [exact Hall|].
    intros req now st Hget. unfold Donations.handler.
    rewrite Hget, Hall. reflexivity.
  - intros apiKey validApiKey Hkey Hlen. split.
    + intros _ _. now apply timingSafeEqual_length_mismatch.
    + unfold Donations.validateApiKey. rewrite Hkey.
      destruct validApiKey as [|c k]; [reflexivity|].
      destruct apiKey as [|c' k']; [reflexivity|].
      now rewrite timingSafeEqual_length_mismatch.
  - intros values validApiKey Hkey Hlen.
    unfold Donations.validateApiKey. rewrite Hkey.
    destruct validApiKey as [|c k]; [reflexivity|].
    now rewrite timingSafeEqual_length_mismatch.
Qed.

Example validateApiKey_same_key (rt : Runtime) :
  Donations.validateApiKey {| WEBHOOK_SECRET := None; API_KEY := Some (js "k3y") |}
    (Some (Donations.KeyString (js "k3y"))) = true.
Proof. reflexivity. Qed.

Example validateApiKey_other_key (rt : Runtime) :
  Donations.validateApiKey {| WEBHOOK_SECRET := None; API_KEY := Some (js "k3y") |}
    (Some (Donations.KeyString (js "k4y"))) = false.
Proof. reflexivity. Qed.

Example validateWebhookSignature_zero_digest :
  @Webhook.validateWebhookSignature sample_runtime alice_5000
    (Some (hex 64 0)) (Some (js "s3cret")) = Ok true
  /\ @Webhook.validateWebhookSignature sample_runtime alice_5000
       (Some (hex 64 1)) (Some (js "s3cret")) = Ok false.
Proof. split; vm_compute; reflexivity. Qed.

Example Buffer_from_examples :
  Buffer_from (js "abc") = [97; 98; 99]%N
  /\ Buffer_from [233]%N = [195; 169]%N
  /\ Buffer_from [8364]%N = [226; 130; 172]%N
  /\ Buffer_from [55357; 56832]%N = [240; 159; 152; 128]%N
  /\ Buffer_from [55357]%N = [239; 191; 189]%N.
Proof. repeat split; reflexivity. Qed.

Example trim_example : trim (js "  Budi Santoso ") = js "Budi Santoso".
Proof. reflexivity. Qed.

Example Number_toString_examples :
  Number_toString (Int 5000) = js "5000" /\ Number_toString (Int 0) = js "0"
  /\ Number_toString (Int (-12)) = js "-12".
Proof. repeat split; reflexivity. Qed.

(** ** The webhook pipeline *)

Example run_two_submissions_and_polls :
  List.map (fmap status)
    (fst (@run sample_runtime env_without_secret initial_state
            [Submit (post "10.0.0.1" None alice_5000) (at_time 1000 1);
             Submit (post "10.0.0.1" None alice_5000) (at_time 1000 2);
             Submit (post "10.0.0.1" None (num 3)) (at_time 1001 3);
             Poll get_donations 2000;
             Poll get_donations 2001]))
  = [Some 200; Some 200; Some 400; Some 200; Some 200].
Proof. vm_compute. reflexivity. Qed.

Example run_two_submissions_and_polls_bodies :
  List.map (fmap json)
    (fst (@run sample_runtime env_without_secret initial_state
            [Submit (post "10.0.0.1" None alice_5000) (at_time 1000 1);
             Submit (post "10.0.0.1" None alice_5000) (at_time 1000 2);
             Poll get_donations 2000;
             Poll get_donations 2001]))
  = [Some (AckBody true (js "Donation received") (Some (hex 32 1)));
     Some (AckBody true (js "Duplicate donation ignored") None);
     Some (DonationsBody true 1
             [{| public_id := hex 32 1; public_donor_name := js "Alice";
                 public_amount := Int 5000; public_message := [];
                 public_timestamp := 1000 |}]);
     Some (DonationsBody true 0 [])].
Proof. vm_compute. reflexivity. Qed.

(** Each outcome of the pipeline on a sample input: preflight, wrong method,
    over quota, bad signature, good signature, bad payload, and a message
    that is not a string (accepted by the validator, then [trim] throws). *)
Example webhook_outcomes :
  let answer env req st := status (fst (@Webhook.handler sample_runtime env req (at_time 1000 1) st)) in
  answer env_with_secret
    {| Webhook.method := js "OPTIONS"; Webhook.x_forwarded_for := None;
       Webhook.remoteAddress := None; Webhook.x_webhook_signature := None;
       Webhook.x_saweria_signature := None; Webhook.body := VUndefined |} initial_state = 200
  /\ answer env_with_secret
       {| Webhook.method := js "GET"; Webhook.x_forwarded_for := None;
          Webhook.remoteAddress := None; Webhook.x_webhook_signature := None;
          Webhook.x_saweria_signature := None; Webhook.body := VUndefined |} initial_state = 405
  /\ answer env_with_secret (post "10.0.0.1" None alice_5000) busy_state = 429
  /\ answer env_with_secret (post "10.0.0.1" (Some (hex 64 1)) alice_5000) initial_state = 401
  /\ answer env_with_secret (post "10.0.0.1" (Some (hex 64 0)) alice_5000) initial_state = 200
  /\ answer env_with_secret (post "10.0.0.1" None VUndefined) initial_state = 400
  /\ answer env_with_secret
       (post "10.0.0.1" None
          (obj [("donor_name", str "Alice"); ("amount", num 5000); ("message", num 7)]))
       initial_state = 500.
Proof. repeat split; vm_compute; reflexivity. Qed.

(** The eleventh submission of an origin within a minute is answered 429. *)
Example eleventh_submission_is_limited :
  List.map (fmap status)
    (fst (@run sample_runtime env_without_secret initial_state
            (List.map (fun i => Submit (post "10.0.0.1" None alice_5000)
                                   (at_time (1000 + Z.of_nat i) (N.of_nat i)))
               (seq 0 11))))
  = repeat (Some 200) 10 ++ [Some 429].
Proof. vm_compute. reflexivity. Qed.

Section PipelineFacts.
Context {rt : Runtime}.

(** Validated data is a record whose donor name is a string and whose amount
    is a positive integer. *)
Lemma validated_shape data :
  validateDonationData data = Ok true ->
  exists props s z,
    data = VObj props
    /\ own_property props (js "donor_name") = VStr s
    /\ own_property props (js "amount") = VNum (Int z)
    /\ s <> [] /\ 0 < z <= 100000000.
Proof.
  intros H. destruct data as [| |b|x|s|l|props];
    try (rewrite validate_not_object in H by discriminate; discriminate).
  rewrite validate_object_bool in H. injection H as H.
  apply andb_true_iff in H as [H _]. apply andb_true_iff in H as [Hn Ha].
  exists props.
  destruct (own_property props (js "donor_name")) as [| |b|x|s|l|ps]; try discriminate.
  destruct (own_property props (js "amount")) as [| |b|x|s'|l|ps]; try discriminate.
  destruct x as [|neg|z]; try discriminate.
  exists s, z. cbn in Ha. apply andb_true_iff in Ha as [H1 H2].
  apply Z.ltb_lt in H1. apply Z.leb_le in H2.
  repeat split; try assumption.
  intros ->. discriminate.
Qed.

Lemma validated_key data now :
  validateDonationData data = Ok true ->
  exists key, Webhook.donation_key data now = Ok key.
Proof.
  intros H. apply validated_shape in H as (props & s & z & -> & Hn & Ha & _).
  unfold Webhook.donation_key. rewrite !get_object, Hn, Ha. cbn. eauto.
Qed.

Lemma checkRateLimit_rejects ip now st st' :
  Webhook.checkRateLimit ip now st = (false, st') -> st' = st.
Proof.
  unfold Webhook.checkRateLimit. destruct (_ <=? _)%nat; congruence.
Qed.

Lemma checkRateLimit_frame ip now st :
  let st' := snd (Webhook.checkRateLimit ip now st) in
  donations st' = donations st
  /\ recentDonationIds st' = recentDonationIds st
  /\ pendingTimeouts st' = pendingTimeouts st
  /\ robloxRateLimit st' = robloxRateLimit st.
Proof.
  unfold Webhook.checkRateLimit. destruct (_ <=? _)%nat; cbn; auto.
Qed.

Lemma isDuplicate_seen key st :
  key ∈ recentDonationIds st -> Webhook.isDuplicate key st = (true, st).
Proof.
  intros H. unfold Webhook.isDuplicate. now rewrite bool_decide_eq_true_2.
Qed.

Lemma isDuplicate_new key st :
  key ∉ recentDonationIds st -> Webhook.isDuplicate key st = (false, record_key key st).
Proof.
  intros H. unfold Webhook.isDuplicate. now rewrite bool_decide_eq_false_2.
Qed.

(** The validator throws on no payload. *)
Lemma validateDonationData_total data : exists b, validateDonationData data = Ok b.
Proof.
  destruct data as [| |b|x|s|l|props];
    try (rewrite validate_not_object by discriminate; eauto).
  rewrite validate_object_bool. eauto.
Qed.

End PipelineFacts.

Lemma store_donation_frame donation now st :
  let st' := Webhook.store_donation donation now st in
  webhookRateLimit st' = webhookRateLimit st
  /\ recentDonationIds st' = recentDonationIds st
  /\ pendingTimeouts st' = pendingTimeouts st
  /\ robloxRateLimit st' = robloxRateLimit st.
Proof.
  unfold Webhook.store_donation, Webhook.cleanupExpiredDonations.
  cbn [donations set_donations].
  destruct (_ <? _)%nat; cbn; auto.
Qed.

(** The outcomes of the [try] block, case by case. *)
Lemma handle_cases
    (rt : Runtime) (env : Env) (req : Webhook.Request) (io : Webhook.Readings) (st : State) :
  let '(allowed, st1) := Webhook.checkRateLimit (client_ip req) (Webhook.now_limit io) st in
  let data := Webhook.body req in
  (allowed = false -> Webhook.handle env req io st = (Ok too_many_requests, st))
  /\ (allowed = true -> signature_verdict env req = Ok false ->
        Webhook.handle env req io st = (Ok invalid_signature, st1))
  /\ (allowed = true -> signature_verdict env req = Ok true ->
      validateDonationData data = Ok false ->
        Webhook.handle env req io st = (Ok invalid_donation_data, st1))
  /\ (allowed = true -> signature_verdict env req = Ok true ->
      validateDonationData data = Ok true ->
      exists key, Webhook.donation_key data (Webhook.now_key io) = Ok key
        /\ (key ∈ recentDonationIds st1 ->
              Webhook.handle env req io st = (Ok duplicate_ignored, st1))
        /\ (key ∉ recentDonationIds st1 ->
              forall donation, Webhook.new_donation data io = Ok donation ->
              Webhook.handle env req io st
              = (Ok (donation_received (Donation.id donation)),
                 Webhook.store_donation donation (Webhook.now_sweep io)
                   (record_key key st1))))
  /\ (forall response st',
        Webhook.handle env req io st = (Ok response, st') ->
        (forall donation_id, response <> donation_received donation_id) ->
        donations st' = donations st
        /\ recentDonationIds st' = recentDonationIds st
        /\ pendingTimeouts st' = pendingTimeouts st).
Proof.
  pose proof (checkRateLimit_frame (client_ip req) (Webhook.now_limit io) st) as Hframe.
  unfold Webhook.handle. fold (client_ip req) (presented_signature req).
  fold (signature_verdict env req).
  destruct (Webhook.checkRateLimit (client_ip req) (Webhook.now_limit io) st)
    as [allowed st1] eqn:Hlimit.
  cbn [snd] in Hframe. destruct Hframe as (Hd & Hr & Hp & _).
  destruct allowed; cbn [negb].
  - (* the limiter lets the submission through *)
    split; [discriminate|].
    destruct (signature_verdict env req) as [[|]|e] eqn:Hsig.
    + split; [discriminate|].
      destruct (validateDonationData (Webhook.body req)) as [[|]|e] eqn:Hvalid.
      * split; [discriminate|].
        destruct (validated_key _ (Webhook.now_key io) Hvalid) as [key Hkey].
        rewrite Hkey.
        destruct (decide (key ∈ recentDonationIds st1)) as [Hin|Hnotin].
        -- rewrite (isDuplicate_seen _ _ Hin). split.
           ++ intros _ _ _. exists key. split; [reflexivity|]. split; [reflexivity|].
              intros Hno. now destruct Hno.
           ++ intros response st' [= <- <-] _. auto.
        -- rewrite (isDuplicate_new _ _ Hnotin). split.
           ++ intros _ _ _. exists key. split; [reflexivity|]. split; [intros Hyes; now destruct Hnotin|].
              intros _ donation ->. reflexivity.
           ++ intros response st'.
              destruct (Webhook.new_donation (Webhook.body req) io) as [donation|e];
                [|discriminate].
              intros [= <- <-] Hno. now destruct (Hno (Donation.id donation)).
      * split; [intros _ _ _; reflexivity|]. split; [discriminate|].
        intros response st' [= <- <-] _. auto.
      * split; [discriminate|]. split; [discriminate|]. discriminate.
    + split; [intros _ _; reflexivity|]. split; [discriminate|]. split; [discriminate|].
      intros response st' [= <- <-] _. auto.
    + split; [discriminate|]. split; [discriminate|]. split; [discriminate|]. discriminate.
  - (* the limiter rejects it *)
    apply checkRateLimit_rejects in Hlimit as ->.
    split; [reflexivity|]. repeat (split; [discriminate|]).
    intros response st' [= <- <-] _. auto.
Qed.





(** ** The signature gate *)

(** C3 (as amended): the verifier is consulted only when a secret is
    configured and the submission presents a signature; a submission with no
    signature (or with no secret configured) passes the signature step and is
    handled as if no secret were configured.  The verifier itself answers
    false when the signature or the secret is absent, and the 401 response
    is sent exactly when the consulted verifier answers false. *)
Theorem signature_checked_only_when_presented
    (rt : Runtime) (env : Env) (req : Webhook.Request) (io : Webhook.Readings) (st : State) :
  (forall payload signature secret,
     present signature = false \/ present secret = false ->
     Webhook.validateWebhookSignature payload signature secret = Ok false)
  /\ (present (WEBHOOK_SECRET env) = false \/ present (presented_signature req) = false ->
        signature_verdict env req = Ok true
        /\ Webhook.handler env req io st
           = Webhook.handler {| WEBHOOK_SECRET := None; API_KEY := API_KEY env |} req io st)
  /\ (fst (Webhook.handle env req io st) = Ok invalid_signature <->
        fst (Webhook.checkRateLimit (client_ip req) (Webhook.now_limit io) st) = true
        /\ present (WEBHOOK_SECRET env) = true
        /\ present (presented_signature req) = true
        /\ Webhook.validateWebhookSignature (Webhook.body req)
             (presented_signature req) (WEBHOOK_SECRET env) = Ok false).
Proof.
  split; [|split].
  - intros payload signature secret H. unfold Webhook.validateWebhookSignature.
    destruct signature as [[|c s]|]; try reflexivity;
      destruct secret as [[|k t]|]; try reflexivity.
    cbn in H. destruct H; discriminate.
  - intros H.
    assert (Hgate : present (WEBHOOK_SECRET env) && present (presented_signature req) = false).
    { apply andb_false_iff. exact H. }
    split; [unfold signature_verdict; now rewrite Hgate|].
    unfold Webhook.handler, Webhook.handle.
    fold (client_ip req) (presented_signature req).
    cbn [WEBHOOK_SECRET present andb]. now rewrite Hgate.
  - pose proof (handle_cases rt env req io st) as Horder.
    destruct (Webhook.checkRateLimit (client_ip req) (Webhook.now_limit io) st)
      as [allowed st1] eqn:Hlimit.
    cbn [fst]. destruct Horder as (H429 & H401 & H400 & H200 & _).
    unfold signature_verdict in *.
    destruct allowed.
    + destruct (present (WEBHOOK_SECRET env) && present (presented_signature req)) eqn:Hgate.
      * apply andb_true_iff in Hgate as [Hsecret Hsig].
        destruct (Webhook.validateWebhookSignature _ _ _) as [[|]|e] eqn:Hverdict.
        -- split; [|intros (_ & _ & _ & ?); discriminate].
           destruct (validateDonationData (Webhook.body req)) as [[|]|e] eqn:Hvalid.
           ++ destruct (H200 eq_refl eq_refl eq_refl) as (key & Hkey & Hdup & Hnew).
              destruct (decide (key ∈ recentDonationIds st1)) as [Hin|Hnotin].
              ** rewrite (Hdup Hin). discriminate.
              ** unfold Webhook.handle in *.
                 fold (client_ip req) (presented_signature req) in *.
                 rewrite Hlimit, Hsecret, Hsig, Hverdict, Hvalid, Hkey in *.
                 cbn [negb andb] in *. rewrite (isDuplicate_new _ _ Hnotin) in *.
                 destruct (Webhook.new_donation _ _); discriminate.
           ++ rewrite (H400 eq_refl eq_refl eq_refl). discriminate.
           ++ unfold Webhook.handle.
              fold (client_ip req) (presented_signature req).
              rewrite Hlimit, Hsecret, Hsig, Hverdict, Hvalid. discriminate.
        -- rewrite (H401 eq_refl eq_refl). split; auto.
        -- unfold Webhook.handle.
           fold (client_ip req) (presented_signature req).
           rewrite Hlimit, Hsecret, Hsig, Hverdict.
           split; [discriminate | intros (_ & _ & _ & ?); discriminate].
      * split.
        -- destruct (validateDonationData (Webhook.body req)) as [[|]|e] eqn:Hvalid.
           ++ destruct (H200 eq_refl eq_refl eq_refl) as (key & Hkey & Hdup & Hnew).
              destruct (decide (key ∈ recentDonationIds st1)) as [Hin|Hnotin].
              ** rewrite (Hdup Hin). discriminate.
              ** unfold Webhook.handle in *.
                 fold (client_ip req) (presented_signature req) in *.
                 rewrite Hlimit, Hgate, Hvalid, Hkey in *.
                 cbn [negb andb] in *. rewrite (isDuplicate_new _ _ Hnotin) in *.
                 destruct (Webhook.new_donation _ _); discriminate.
           ++ rewrite (H400 eq_refl eq_refl eq_refl). discriminate.
           ++ unfold Webhook.handle.
              fold (client_ip req) (presented_signature req).
              rewrite Hlimit, Hgate, Hvalid. discriminate.
        -- intros (_ & Hs & Hp & _). rewrite Hs, Hp in Hgate. discriminate.
    + rewrite (H429 eq_refl). split; [discriminate | intros [? _]; discriminate].
Qed.

(** C3, counterexample: with a secret configured, a valid submission that
    presents no signature is admitted: it is answered [Donation received]
    and the donation is stored. *)
Lemma unsigned_submission_admitted_despite_secret :
  present (WEBHOOK_SECRET env_with_secret) = true
  /\ presented_signature (post "10.0.0.1" None alice_5000) = None
  /\ (forall rt : Runtime,
        fst (Webhook.handler env_with_secret (post "10.0.0.1" None alice_5000)
               (at_time 1000 1) initial_state)
        = donation_received (hex 32 1))
  /\ (forall rt : Runtime,
        List.map Donation.donor_name
          (donations (snd (Webhook.handler env_with_secret
                             (post "10.0.0.1" None alice_5000)
                             (at_time 1000 1) initial_state)))
        = [js "Alice"]).
Proof.
  repeat split; intros; vm_compute; reflexivity.
Qed.

(** ** The donation store *)

Lemma filter_fresh now (ds : list Donation.t) :
  List.filter (fun d => now - Donation.timestamp d <? Webhook.DONATION_EXPIRY) ds
  = filter (fresh now) ds.
Proof.
  induction ds as [|d ds IH]; [reflexivity|].
  cbn [List.filter]. rewrite filter_cons, IH. unfold fresh, Webhook.DONATION_EXPIRY.
  destruct (Z.ltb_spec (now - Donation.timestamp d) (5 * 60 * 1000));
    destruct (decide (now - Donation.timestamp d < 5 * 60 * 1000)); try lia; reflexivity.
Qed.


Lemma filter_unprocessed (ds : list Donation.t) :
  List.filter (fun d => negb (Donation.processed d)) ds = filter unprocessed ds.
Proof.
  induction ds as [|d ds IH]; [reflexivity|].
  cbn [List.filter]. rewrite filter_cons, IH.
  destruct (decide (unprocessed d)) as [H|H]; unfold unprocessed in H.
  - now rewrite H.
  - apply not_false_is_true in H. now rewrite H.
Qed.

Lemma donations_store_donation donation now st :
  donations (Webhook.store_donation donation now st)
  = filter (fresh now) (capped (donations st ++ [donation])).
Proof.
  unfold Webhook.store_donation, Webhook.cleanupExpiredDonations, capped,
    Webhook.MAX_DONATIONS.
  cbn [donations set_donations].
  destruct (100 <? length (donations st ++ [donation]))%nat;
    cbn [donations set_donations]; apply filter_fresh.
Qed.

(** A new donation carries the clock reading, the issued identifier, and is
    unprocessed. *)
Lemma new_donation_fields data io donation :
  Webhook.new_donation data io = Ok donation ->
  Donation.timestamp donation = Webhook.now_stamp io
  /\ Donation.id donation = issued_id io
  /\ Donation.processed donation = false.
Proof.
  unfold Webhook.new_donation. intros H.
  destruct (get data (js "donor_name")) as [n|]; [|discriminate].
  destruct (get data (js "amount")) as [a|]; [|discriminate].
  destruct (get data (js "message")) as [m|]; [|discriminate].
  cbn [mbind Result_bind] in H.
  destruct n; try discriminate. destruct a; try discriminate.
  destruct (if truthy m then _ else _) as [trimmed|]; [|discriminate].
  cbn [mbind Result_bind] in H. injection H as <-. repeat split.
Qed.

Section StoreFacts.
Context {rt : Runtime}.
Variable env : Env.

(** What a submission does to the store: it appends one donation, caps and
    sweeps, exactly when it is answered [Donation received]; otherwise the
    store is as before. *)
Lemma webhook_handler_store req io st :
  let '(response, st') := Webhook.handler env req io st in
  (exists donation,
     Webhook.new_donation (Webhook.body req) io = Ok donation
     /\ response = donation_received (Donation.id donation)
     /\ donations st'
        = filter (fresh (Webhook.now_sweep io)) (capped (donations st ++ [donation])))
  \/ (is_received (Some response) = false
      /\ delivered (Some response) = []
      /\ donations st' = donations st).
Proof.
  unfold Webhook.handler.
  destruct (str_eqb (Webhook.method req) (js "OPTIONS")).
  { right. repeat split; reflexivity. }
  destruct (negb (str_eqb (Webhook.method req) (js "POST"))).
  { right. repeat split; reflexivity. }
  pose proof (checkRateLimit_frame (client_ip req) (Webhook.now_limit io) st) as Hframe.
  unfold Webhook.handle. fold (client_ip req) (presented_signature req).
  fold (signature_verdict env req).
  destruct (Webhook.checkRateLimit (client_ip req) (Webhook.now_limit io) st)
    as [allowed st1].
  cbn [snd] in Hframe. destruct Hframe as (Hd & _).
  destruct allowed; cbn [negb]; [|right; repeat split; try reflexivity; exact Hd].
  destruct (signature_verdict env req) as [[|]|e];
    [|right; repeat split; try reflexivity; exact Hd..].
  destruct (validateDonationData (Webhook.body req)) as [[|]|e];
    [|right; repeat split; try reflexivity; exact Hd..].
  destruct (Webhook.donation_key (Webhook.body req) (Webhook.now_key io)) as [key|e];
    [|right; repeat split; try reflexivity; exact Hd].
  unfold Webhook.isDuplicate.
  destruct (bool_decide (key ∈ recentDonationIds st1));
    [right; repeat split; try reflexivity; exact Hd|].
  destruct (Webhook.new_donation (Webhook.body req) io) as [donation|e];
    [|right; repeat split; try reflexivity; exact Hd].
  left. exists donation. split; [reflexivity|]. split; [reflexivity|].
  rewrite donations_store_donation. cbn [donations set_recentDonationIds].
  now rewrite Hd.
Qed.

(** What a retrieval does to the store: when it is answered with donations,
    these are the unprocessed ones, in the order of the store, and every
    stored donation is marked; otherwise the store is as before. *)
Lemma donations_handler_store req now st :
  let '(response, st') := Donations.handler env req now st in
  (response = {| status := 200;
                 json := DonationsBody true (length (filter unprocessed (donations st)))
                           (List.map Donations.public_view (filter unprocessed (donations st))) |}
   /\ donations st' = List.map mark (donations st))
  \/ ((json response = NoBody \/ exists e, json response = ErrorBody e)
      /\ donations st' = donations st).
Proof.
  unfold Donations.handler.
  destruct (str_eqb (Donations.method req) (js "OPTIONS")); [right; split; eauto|].
  destruct (negb (str_eqb (Donations.method req) (js "GET")));
    [right; split; cbn [json]; eauto|].
  destruct (negb (Donations.validateApiKey env _)); [right; split; cbn [json]; eauto|].
  destruct (Donations.header_or_query _ _) as [[apiKey|values]|];
    [|right; split; cbn [json]; eauto..].
  unfold Donations.checkRobloxRateLimit.
  destruct (_ <=? _)%nat; cbn [negb]; [right; split; cbn [json]; eauto|].
  left. unfold Donations.take_unprocessed. cbn [donations set_robloxRateLimit set_donations].
  rewrite filter_unprocessed. split; reflexivity.
Qed.

(** The effect of one event on the store and on what is delivered. *)
Lemma step_store st ev :
  let '(response, st') := step env st ev in
  match ev with
  | Submit req io =>
      delivered response = []
      /\ ((exists donation,
             Webhook.new_donation (Webhook.body req) io = Ok donation
             /\ response = Some (donation_received (Donation.id donation))
             /\ donations st'
                = filter (fresh (Webhook.now_sweep io)) (capped (donations st ++ [donation])))
          \/ (is_received response = false /\ donations st' = donations st))
  | Poll req now =>
      (delivered response = List.map Donations.public_view (filter unprocessed (donations st))
       /\ donations st' = List.map mark (donations st))
      \/ (delivered response = [] /\ donations st' = donations st)
  | Timeout _ => delivered response = [] /\ donations st' = donations st
  end.
Proof.
  destruct ev as [req io|req now|key]; cbn [step].
  - pose proof (webhook_handler_store req io st) as H.
    destruct (Webhook.handler env req io st) as [response st'].
    destruct H as [(donation & Hnew & -> & Hst)|(Hno & Hd & Hst)].
    + split; [reflexivity|]. left. eauto.
    + split; [exact Hd|]. right. split; assumption.
  - pose proof (donations_handler_store req now st) as H.
    destruct (Donations.handler env req now st) as [response st'].
    destruct H as [[-> Hst]|[Hd Hst]]; [left | right]; split; auto.
    destruct response as [code body]. cbn [json] in Hd.
    destruct Hd as [->|[e ->]]; reflexivity.
  - split; [reflexivity|]. destruct (bool_decide _); reflexivity.
Qed.

End StoreFacts.

(** ** Capacity *)

Lemma capped_sublist (ds : list Donation.t) : capped ds `sublist_of` ds.
Proof.
  unfold capped. destruct (100 <? length ds)%nat; [|reflexivity].
  destruct ds; [reflexivity | now apply sublist_cons].
Qed.

Lemma new_store_sublist now (ds : list Donation.t) :
  filter (fresh now) (capped ds) `sublist_of` ds.
Proof.
  etransitivity; [apply sublist_filter; apply _ | apply capped_sublist].
Qed.



Section CapacityFacts.
Context {rt : Runtime}.
Variable env : Env.




End CapacityFacts.



(** ** Retrieval: order and at-most-once delivery *)

Lemma sublist_StronglySorted {A} (R : relation A) (l1 l2 : list A) :
  l1 `sublist_of` l2 -> StronglySorted R l2 -> StronglySorted R l1.
Proof.
  induction 1 as [|x l1 l2 Hsub IH|x l1 l2 Hsub IH]; intros Hsorted.
  - constructor.
  - apply StronglySorted_cons in Hsorted as [Hall Hsorted].
    apply StronglySorted_cons. split; [|now apply IH].
    rewrite Forall_forall in Hall. apply Forall_forall. intros y Hy. apply Hall.
    eapply elem_of_sublist; eassumption.
  - apply StronglySorted_cons in Hsorted as [_ Hsorted]. now apply IH.
Qed.

Lemma sublist_map {A B} (f : A -> B) (l1 l2 : list A) :
  l1 `sublist_of` l2 -> List.map f l1 `sublist_of` List.map f l2.
Proof.
  induction 1; cbn [List.map]; [constructor | now apply sublist_skip | now apply sublist_cons].
Qed.

Lemma mark_timestamp d : Donation.timestamp (mark d) = Donation.timestamp d.
Proof. unfold mark. now destruct (Donation.processed d). Qed.

Lemma mark_id d : Donation.id (mark d) = Donation.id d.
Proof. unfold mark. now destruct (Donation.processed d). Qed.

Lemma mark_processed_true d : Donation.processed (mark d) = true.
Proof. unfold mark. now destruct (Donation.processed d) eqn:E. Qed.

Lemma mark_is_mark_processed d : mark d = Donations.mark_processed d.
Proof. unfold mark. destruct d as [i n a m t []]; reflexivity. Qed.

Lemma map_mark_sorted ds :
  StronglySorted by_time ds -> StronglySorted by_time (List.map mark ds).
Proof.
  induction 1 as [|d ds Hsorted IH Hall]; cbn [List.map]; constructor; [exact IH|].
  rewrite Forall_forall in Hall. apply Forall_forall. intros y Hy.
  apply list_elem_of_fmap in Hy as [x [-> Hx]].
  unfold by_time. rewrite !mark_timestamp. now apply Hall.
Qed.

Lemma by_time_sorted ds :
  StronglySorted by_time ds -> Sorted Z.le (List.map Donation.timestamp ds).
Proof.
  intros H. apply StronglySorted_Sorted.
  induction H as [|d ds Hsorted IH Hall]; cbn [List.map]; constructor; [exact IH|].
  rewrite Forall_forall in Hall. apply Forall_forall. intros y Hy.
  apply list_elem_of_fmap in Hy as [x [-> Hx]]. now apply Hall.
Qed.

Section DeliveryFacts.
Context {rt : Runtime}.
Variable env : Env.

(** Along a chronological run the store stays ordered by admission time. *)
Lemma run_sorted evs st :
  StronglySorted Z.le (flat_map clock_readings evs) ->
  StronglySorted by_time (donations st) ->
  (forall d r, d ∈ donations st -> r ∈ flat_map clock_readings evs ->
     Donation.timestamp d <= r) ->
  StronglySorted by_time (donations (snd (run env st evs))).
Proof.
  revert st. induction evs as [|ev evs IH]; intros st Hclock Hsorted Hpast; [exact Hsorted|].
  cbn [run flat_map] in *.
  apply StronglySorted_app in Hclock as (Hcross & _ & Hrest).
  pose proof (step_store env st ev) as Hstep.
  destruct (step env st ev) as [response st1] eqn:Hs. rewrite ?Hs in Hstep.
  specialize (IH st1 Hrest).
  destruct (run env st1 evs) as [responses st2] eqn:Hr. cbn [snd] in *.
  assert (Hkeep : donations st1 = donations st ->
                  StronglySorted by_time (donations st2)).
  { intros Heq. apply IH; rewrite Heq; [exact Hsorted|].
    intros d r Hd Hin. apply Hpast; [exact Hd|]. apply elem_of_app. now right. }
  destruct ev as [req io|req now|key].
  - destruct Hstep as [_ [(donation & Hnew & _ & Hst1)|[_ Heq]]]; [|now apply Hkeep].
    destruct (new_donation_fields _ _ _ Hnew) as (Hts & _ & _).
    pose proof (new_store_sublist (Webhook.now_sweep io) (donations st ++ [donation])) as Hsub.
    rewrite <- Hst1 in Hsub.
    assert (Hstamp : Webhook.now_stamp io ∈ clock_readings (Submit req io)).
    { cbn. set_solver. }
    apply IH.
    + eapply sublist_StronglySorted; [exact Hsub|].
      apply StronglySorted_app. split; [|split; [exact Hsorted | repeat constructor]].
      intros x y Hx Hy. apply list_elem_of_singleton in Hy as ->.
      unfold by_time. rewrite Hts. apply Hpast; [exact Hx|].
      apply elem_of_app. now left.
    + intros d r Hd Hin.
      apply (elem_of_sublist _ _ _ Hd) in Hsub.
      apply elem_of_app in Hsub as [Hold|Hnewd].
      * apply Hpast; [exact Hold|]. apply elem_of_app. now right.
      * apply list_elem_of_singleton in Hnewd as ->. rewrite Hts.
        now apply Hcross.
  - destruct Hstep as [[_ Hst1]|[_ Heq]]; [|now apply Hkeep].
    apply IH; rewrite Hst1.
    + now apply map_mark_sorted.
    + intros d r Hd Hin. apply list_elem_of_fmap in Hd as [x [-> Hx]].
      rewrite mark_timestamp. apply Hpast; [exact Hx|]. apply elem_of_app. now right.
  - destruct Hstep as [_ Heq]. now apply Hkeep.
Qed.

(** Along a run whose issued identifiers are pairwise distinct, no identifier
    is delivered twice: an identifier already delivered ([seen]) belongs to
    no unprocessed stored donation. *)
Lemma run_delivered_NoDup evs st (seen : list JsString) :
  NoDup (issued_ids evs) ->
  NoDup (List.map Donation.id (donations st)) ->
  (forall i, i ∈ issued_ids evs -> i ∉ List.map Donation.id (donations st)) ->
  (forall i, i ∈ issued_ids evs -> i ∉ seen) ->
  NoDup seen ->
  (forall d, d ∈ donations st -> Donation.processed d = false -> Donation.id d ∉ seen) ->
  NoDup (seen ++ delivered_ids (fst (run env st evs))).
Proof.
  revert st seen.
  induction evs as [|ev evs IH]; intros st seen Hissued Hstore Hnew Hnotseen Hseen Hpending.
  { cbn. now rewrite app_nil_r. }
  cbn [run].
  pose proof (step_store env st ev) as Hstep.
  destruct (step env st ev) as [response st1] eqn:Hs. rewrite ?Hs in Hstep.
  specialize (IH st1).
  destruct (run env st1 evs) as [responses st2] eqn:Hr. cbn [fst] in *.
  unfold delivered_ids. cbn [flat_map]. fold (delivered_ids responses).
  destruct ev as [req io|req now|key].
  - (* a submission delivers nothing *)
    destruct Hstep as [-> Hstep]. cbn [List.map app].
    cbn [issued_ids flat_map app] in Hissued, Hnew, Hnotseen.
    fold (issued_ids evs) in Hissued, Hnew, Hnotseen.
    apply NoDup_cons in Hissued as [Hfresh Hissued].
    destruct Hstep as [(donation & Hdonation & _ & Hst1)|[_ Hst1]].
    + destruct (new_donation_fields _ _ _ Hdonation) as (_ & Hid & Hunprocessed).
      pose proof (new_store_sublist (Webhook.now_sweep io) (donations st ++ [donation])) as Hsub.
      rewrite <- Hst1 in Hsub.
      assert (Hids : List.map Donation.id (donations st ++ [donation])
                     = List.map Donation.id (donations st) ++ [issued_id io]).
      { rewrite List.map_app. cbn. now rewrite Hid. }
      apply IH; try assumption.
      * eapply sublist_NoDup; [|apply sublist_map; exact Hsub].
        rewrite Hids. apply NoDup_app. split; [exact Hstore|]. split; [|apply NoDup_singleton].
        intros x Hx Hx'. apply list_elem_of_singleton in Hx' as ->.
        apply (Hnew (issued_id io)); [now left | exact Hx].
      * intros i Hi Hin.
        pose proof (elem_of_sublist _ _ _ Hin (sublist_map Donation.id _ _ Hsub)) as Hin'.
        rewrite Hids in Hin'. apply elem_of_app in Hin' as [Hold|Hthis].
        -- apply (Hnew i); [now right | exact Hold].
        -- apply list_elem_of_singleton in Hthis as ->. contradiction.
      * intros i Hi. apply Hnotseen. now right.
      * intros d Hd Hun.
        apply (elem_of_sublist _ _ _ Hd) in Hsub.
        apply elem_of_app in Hsub as [Hold|Hthis].
        -- now apply Hpending.
        -- apply list_elem_of_singleton in Hthis as ->. rewrite Hid.
           apply Hnotseen. now left.
    + apply IH; rewrite ?Hst1; try assumption.
      * intros i Hi. apply Hnew. now right.
      * intros i Hi. apply Hnotseen. now right.
  - (* a retrieval delivers the unprocessed donations and marks all *)
    cbn [issued_ids flat_map app] in Hissued, Hnew, Hnotseen.
    fold (issued_ids evs) in Hissued, Hnew, Hnotseen.
    destruct Hstep as [[-> Hst1]|[-> Hst1]].
    + rewrite app_assoc.
      assert (Hout : List.map public_id
                       (List.map Donations.public_view (filter unprocessed (donations st)))
                     = List.map Donation.id (filter unprocessed (donations st))).
      { rewrite List.map_map. reflexivity. }
      rewrite Hout.
      assert (Hmarked : List.map Donation.id (List.map mark (donations st))
                        = List.map Donation.id (donations st)).
      { rewrite List.map_map. apply List.map_ext. apply mark_id. }
      assert (Hsub : List.map Donation.id (filter unprocessed (donations st))
                       `sublist_of` List.map Donation.id (donations st)).
      { apply sublist_map, sublist_filter. }
      apply IH; rewrite ?Hst1, ?Hmarked; try assumption.
      * intros i Hi Hin. apply elem_of_app in Hin as [Hin|Hin].
        -- now apply (Hnotseen i).
        -- apply (Hnew i Hi). eapply elem_of_sublist; eassumption.
      * apply NoDup_app. split; [exact Hseen|]. split.
        -- intros x Hx Hx'. apply list_elem_of_fmap in Hx' as [d [-> Hd]].
           apply list_elem_of_filter in Hd as [Hun Hd].
           now apply (Hpending d Hd Hun).
        -- exact (sublist_NoDup _ _ Hstore Hsub).
      * intros d Hd Hun. apply list_elem_of_fmap in Hd as [x [-> Hx]].
        rewrite mark_processed_true in Hun. discriminate.
    + cbn [List.map app]. apply IH; rewrite ?Hst1; assumption.
  - destruct Hstep as [-> Hst1]. cbn [List.map app].
    apply IH; rewrite ?Hst1; assumption.
Qed.

End DeliveryFacts.

Lemma filter_unprocessed_none ds :
  Forall (fun d => Donation.processed d = true) ds -> filter unprocessed ds = [].
Proof.
  induction 1 as [|d ds Hd _ IH]; [reflexivity|].
  rewrite filter_cons_False; [exact IH|]. unfold unprocessed. congruence.
Qed.

(** C5: over any run from the initial state in which the clock never goes
    back and the issued identifiers are distinct, a retrieval returns exactly
    the unprocessed donations, in ascending order of admission time, and
    marks each of them (every stored donation is then processed); a second
    retrieval right after it returns nothing; and no identifier is delivered
    twice over the whole run. *)
Theorem take_unprocessed_delivers_once (rt : Runtime) (env : Env) (evs : list Event) :
  chronological evs -> NoDup (issued_ids evs) ->
  let st := snd (run env initial_state evs) in
  let returned := fst (Donations.take_unprocessed st) in
  let st' := snd (Donations.take_unprocessed st) in
  returned = filter unprocessed (donations st)
  /\ Sorted Z.le (List.map Donation.timestamp returned)
  /\ donations st' = List.map Donations.mark_processed (donations st)
  /\ Forall (fun d => Donation.processed d = true) (donations st')
  /\ fst (Donations.take_unprocessed st') = []
  /\ NoDup (delivered_ids (fst (run env initial_state evs))).
Proof.
  intros Hclock Hissued st returned st'.
  assert (Hsorted : StronglySorted by_time (donations st)).
  { apply run_sorted.
    - apply Sorted_StronglySorted; [|exact Hclock]. intros x y z. apply Z.le_trans.
    - constructor.
    - intros d r Hd. cbn in Hd. now apply elem_of_nil in Hd. }
  assert (Hmarked : donations st' = List.map Donations.mark_processed (donations st)).
  { unfold st', Donations.take_unprocessed. cbn [snd donations set_donations].
    apply List.map_ext. intros d. apply mark_is_mark_processed. }
  assert (Hreturned : returned = filter unprocessed (donations st)).
  { unfold returned, Donations.take_unprocessed. cbn [fst]. apply filter_unprocessed. }
  assert (Hall : Forall (fun d => Donation.processed d = true) (donations st')).
  { rewrite Hmarked. apply Forall_forall. intros d Hd.
    apply list_elem_of_fmap in Hd as [x [-> _]]. reflexivity. }
  repeat split; try assumption.
  - rewrite Hreturned. apply by_time_sorted.
    eapply sublist_StronglySorted; [apply sublist_filter | exact Hsorted].
  - unfold Donations.take_unprocessed. cbn [fst]. rewrite filter_unprocessed.
    now apply filter_unprocessed_none.
  - apply (run_delivered_NoDup env evs initial_state []); try assumption.
    + constructor.
    + intros i _ Hi. cbn in Hi. now apply elem_of_nil in Hi.
    + intros i _ Hi. now apply elem_of_nil in Hi.
    + constructor.
    + intros d Hd. cbn in Hd. now apply elem_of_nil in Hd.
Qed.

(** C5, instance: two submissions, a retrieval, a third submission and two
    more retrievals. *)
Lemma take_unprocessed_delivers_once_sample :
  let evs := [Submit (fst (sample_submission 0)) (snd (sample_submission 0));
              Submit (fst (sample_submission 1)) (snd (sample_submission 1));
              Poll get_donations 2000;
              Submit (fst (sample_submission 2000)) (snd (sample_submission 2000));
              Poll get_donations 4000;
              Poll get_donations 4001] in
  chronological evs /\ NoDup (issued_ids evs)
  /\ let st := snd (@run sample_runtime env_without_secret initial_state evs) in
     let returned := fst (Donations.take_unprocessed st) in
     let st' := snd (Donations.take_unprocessed st) in
     returned = filter unprocessed (donations st)
     /\ Sorted Z.le (List.map Donation.timestamp returned)
     /\ donations st' = List.map Donations.mark_processed (donations st)
     /\ Forall (fun d => Donation.processed d = true) (donations st')
     /\ fst (Donations.take_unprocessed st') = []
     /\ NoDup (delivered_ids
                 (fst (@run sample_runtime env_without_secret initial_state evs))).
Proof.
  intros evs.
  assert (H1 : chronological evs).
  { unfold chronological. cbn. repeat constructor; lia. }
  assert (H2 : NoDup (issued_ids evs)).
  { refine (bool_decide_unpack _ _). vm_compute. exact I. }
  split; [exact H1|]. split; [exact H2|].
  exact (take_unprocessed_delivers_once sample_runtime env_without_secret evs H1 H2).
Defined.

Example sample_run_delivers_each_once :
  delivered_ids
    (fst (@run sample_runtime env_without_secret initial_state
            [Submit (fst (sample_submission 0)) (snd (sample_submission 0));
             Submit (fst (sample_submission 1)) (snd (sample_submission 1));
             Poll get_donations 2000;
             Submit (fst (sample_submission 2000)) (snd (sample_submission 2000));
             Poll get_donations 4000;
             Poll get_donations 4001]))
  = [hex 32 0; hex 32 1; hex 32 2000].
Proof. vm_compute. reflexivity. Qed.

(** ** Expiry *)

Section ExpiryFacts.
Context {rt : Runtime}.
Variable env : Env.

(** A retrieval with the right key, under the retrieval limit. *)
Lemma poll_answered req now st apiKey :
  Donations.method req = js "GET" ->
  presented_key req = Some (Donations.KeyString apiKey) ->
  Donations.validateApiKey env (Some (Donations.KeyString apiKey)) = true ->
  robloxRateLimit st = ∅ ->
  let '(response, st') := Donations.handler env req now st in
  response = {| status := 200;
                json := DonationsBody true (length (filter unprocessed (donations st)))
                          (List.map Donations.public_view
                             (filter unprocessed (donations st))) |}
  /\ donations st' = List.map mark (donations st).
Proof.
  intros Hget Hpresented Hkey Hlimit. unfold Donations.handler.
  fold (presented_key req). rewrite Hget, Hpresented, Hkey. cbn [negb].
  replace (str_eqb (js "GET") (js "OPTIONS")) with false by reflexivity.
  replace (str_eqb (js "GET") (js "GET")) with true by reflexivity.
  cbn [negb]. unfold Donations.checkRobloxRateLimit.
  rewrite Hlimit, lookup_empty. cbn [default].
  change (List.filter _ []) with (@nil Z). cbn [length].
  change (Donations.ROBLOX_RATE_LIMIT <=? 0)%nat with false. cbn [negb app].
  unfold Donations.take_unprocessed. cbn [donations set_robloxRateLimit set_donations].
  rewrite filter_unprocessed. split; reflexivity.
Qed.

End ExpiryFacts.

(** C7 (as amended): an admission sweeps the store: after it the store holds
    exactly the donations of the capped store that are less than five
    minutes old at the sweep.  A retrieval does not sweep: it removes
    nothing from the store, whatever the age, and what it returns are all
    the unprocessed donations of the store. *)
Theorem admission_sweeps_retrieval_does_not (rt : Runtime) (env : Env) :
  (forall req io st,
     is_received (Some (fst (Webhook.handler env req io st))) = true ->
     exists donation,
       Webhook.new_donation (Webhook.body req) io = Ok donation
       /\ forall d,
            d ∈ donations (snd (Webhook.handler env req io st)) <->
            d ∈ capped (donations st ++ [donation])
            /\ Webhook.now_sweep io - Donation.timestamp d < 5 * 60 * 1000)
  /\ (forall req now st,
        List.map Donation.timestamp (donations (snd (Donations.handler env req now st)))
        = List.map Donation.timestamp (donations st))
  /\ (forall req now st success count ds,
        json (fst (Donations.handler env req now st)) = DonationsBody success count ds ->
        ds = List.map Donations.public_view (filter unprocessed (donations st))).
Proof.
  split; [|split].
  - intros req io st Hreceived.
    pose proof (webhook_handler_store env req io st) as H.
    destruct (Webhook.handler env req io st) as [response st']. cbn [fst snd] in *.
    destruct H as [(donation & Hnew & _ & Hst)|(Hno & _)]; [|congruence].
    exists donation. split; [exact Hnew|]. intros d.
    rewrite Hst, list_elem_of_filter. unfold fresh. tauto.
  - intros req now st.
    pose proof (donations_handler_store env req now st) as H.
    destruct (Donations.handler env req now st) as [response st']. cbn [snd].
    destruct H as [[_ ->]|[_ ->]]; [|reflexivity].
    rewrite List.map_map. apply List.map_ext, mark_timestamp.
  - intros req now st success count ds.
    pose proof (donations_handler_store env req now st) as H.
    destruct (Donations.handler env req now st) as [response st']. cbn [fst].
    destruct H as [[-> _]|[[Hbody|[e Hbody]] _]].
    + cbn [json]. now intros [= _ _ <-].
    + rewrite Hbody. discriminate.
    + rewrite Hbody. discriminate.
Qed.

(** C7, counterexample: a donation admitted at time 1000 and retrieved at
    time 500000, more than five minutes later, is delivered by that retrieval
    and is still in the store after it. *)
Lemma expired_donation_is_still_delivered :
  500000 - 1000 >= 5 * 60 * 1000
  /\ (forall rt : Runtime,
        fst (run env_without_secret initial_state
               [Submit (post "10.0.0.1" None alice_5000) (at_time 1000 1);
                Poll get_donations 500000])
        = [Some (donation_received (hex 32 1));
           Some {| status := 200;
                   json := DonationsBody true 1
                             [{| public_id := hex 32 1; public_donor_name := js "Alice";
                                 public_amount := Int 5000; public_message := [];
                                 public_timestamp := 1000 |}] |}])
  /\ (forall rt : Runtime,
        List.map Donation.timestamp
          (donations (snd (run env_without_secret initial_state
                             [Submit (post "10.0.0.1" None alice_5000) (at_time 1000 1);
                              Poll get_donations 500000])))
        = [1000]).
Proof.
  assert (Hsubmit : forall rt : Runtime,
            exists st1,
              Webhook.handler env_without_secret (post "10.0.0.1" None alice_5000)
                (at_time 1000 1) initial_state
              = (donation_received (hex 32 1), st1)
              /\ robloxRateLimit st1 = ∅
              /\ donations st1
                 = [{| Donation.id := hex 32 1; Donation.donor_name := js "Alice";
                       Donation.amount := Int 5000; Donation.message := [];
                       Donation.timestamp := 1000; Donation.processed := false |}]).
  { intros rt. eexists. split; [vm_compute; reflexivity|]. split; reflexivity. }
  split; [lia|]. split; intros rt; destruct (Hsubmit rt) as (st1 & Hs & Hlimit & Hstore);
    cbn [run step]; rewrite Hs;
    pose proof (poll_answered env_without_secret get_donations 500000 st1 (js "k3y")
                  eq_refl eq_refl eq_refl Hlimit) as Hpoll;
    destruct (Donations.handler env_without_secret get_donations 500000 st1)
      as [response st2];
    destruct Hpoll as [-> Hst2]; cbn [fst snd].
  - rewrite Hstore. reflexivity.
  - rewrite Hst2, Hstore. reflexivity.
Qed.

(** ** Duplicate suppression *)

(** The duplicate key determines the clock reading it was built with. *)
Lemma js_inj s1 s2 : js s1 = js s2 -> s1 = s2.
Proof.
  unfold js. intros H.
  rewrite <- (string_of_list_ascii_of_string s1), <- (string_of_list_ascii_of_string s2).
  f_equal. revert H.
  generalize (list_ascii_of_string s1) (list_ascii_of_string s2).
  induction l as [|a l IH]; intros [|b l']; cbn; try discriminate; [reflexivity|].
  intros [= Hab Hl]. f_equal; [|now apply IH].
  rewrite <- (ascii_N_embedding a), <- (ascii_N_embedding b). now f_equal.
Qed.

Lemma decimal_inj n1 n2 : decimal n1 = decimal n2 -> n1 = n2.
Proof.
  unfold decimal. intros H. apply js_inj in H.
  assert (Hu : Some (N.to_uint n1) = Some (N.to_uint n2)).
  { rewrite <- !NilEmpty.usu. now f_equal. }
  injection Hu as Hu.
  rewrite <- (DecimalN.Unsigned.of_to n1), <- (DecimalN.Unsigned.of_to n2). now f_equal.
Qed.

Lemma donation_key_clock_inj data t1 t2 key :
  0 <= t1 -> 0 <= t2 ->
  Webhook.donation_key data t1 = Ok key -> Webhook.donation_key data t2 = Ok key ->
  t1 = t2.
Proof.
  intros H1 H2. unfold Webhook.donation_key.
  destruct (get data (js "donor_name")) as [n|]; [|discriminate].
  destruct (get data (js "amount")) as [a|]; [|discriminate].
  cbn [mbind Result_bind].
  destruct n; try discriminate. destruct a; try discriminate.
  intros Hk1 Hk2. rewrite <- Hk1 in Hk2. clear Hk1.
  assert (Heq : forall a b : JsString, Ok a = Ok b -> a = b) by (intros ? ? [= ->]; reflexivity).
  apply Heq in Hk2. clear Heq.
  do 4 apply app_inv_head in Hk2.
  unfold Number_toString in Hk2.
  destruct (Z.ltb_spec t1 0), (Z.ltb_spec t2 0); try lia.
  apply decimal_inj in Hk2. lia.
Qed.

(** C4 (the code departs from it): the duplicate key ends with the
    millisecond clock reading, so the same donor and amount submitted again
    one millisecond later has another key: both submissions are answered
    [Donation received] and both donations are stored.  Only a resubmission
    within the same millisecond is acknowledged as a duplicate: equal keys
    have equal clock readings. *)
Theorem resubmission_a_millisecond_later_is_admitted (rt : Runtime) :
  let submit t random := Submit (post "10.0.0.1" None alice_5000) (at_time t random) in
  (fst (run env_without_secret initial_state [submit 1000 1%N; submit 1001 2%N])
   = [Some (donation_received (hex 32 1)); Some (donation_received (hex 32 2))]
   /\ length (donations (snd (run env_without_secret initial_state
                                [submit 1000 1%N; submit 1001 2%N]))) = 2%nat)
  /\ (fst (run env_without_secret initial_state [submit 1000 1%N; submit 1000 2%N])
      = [Some (donation_received (hex 32 1)); Some duplicate_ignored]
      /\ length (donations (snd (run env_without_secret initial_state
                                   [submit 1000 1%N; submit 1000 2%N]))) = 1%nat)
  /\ Webhook.donation_key alice_5000 1000 = Ok (js "Alice_5000_1000")
  /\ Webhook.donation_key alice_5000 1001 = Ok (js "Alice_5000_1001")
  /\ (forall data t1 t2 key,
        0 <= t1 -> 0 <= t2 ->
        Webhook.donation_key data t1 = Ok key -> Webhook.donation_key data t2 = Ok key ->
        t1 = t2).
Proof.
  intros submit.
  split; [split; vm_compute; reflexivity|].
  split; [split; vm_compute; reflexivity|].
  split; [reflexivity|]. split; [reflexivity|].
  exact donation_key_clock_inj.
Qed.
(** ** Credentials: what the two checks accept *)

Lemma Buffer_from_ascii_inv s :
  Forall (fun b => (b < 128)%N) (Buffer_from s) -> Forall (fun c => (c < 128)%N) s.
Proof.
  induction s as [|c rest IH]; [constructor|].
  cbn [Buffer_from].
  destruct (N.ltb_spec c 128) as [Hc|Hc].
  { intros H. apply Forall_cons in H as [_ H]. constructor; [exact Hc | now apply IH]. }
  assert (Hno : forall a x bs,
            (128 <= a)%N -> ~ Forall (fun b => (b < 128)%N) ((a + x)%N :: bs)).
  { intros a x bs Ha H. apply Forall_cons in H as [H _]. lia. }
  intros H. exfalso. revert H.
  destruct (c <? 2048)%N; [apply (Hno 192%N); lia|].
  destruct (is_high_surrogate c).
  { destruct rest as [|d rest']; [apply (Hno 224%N); lia|].
    destruct (is_low_surrogate d); [apply (Hno 240%N) | apply (Hno 224%N)]; lia. }
  destruct (is_low_surrogate c); apply (Hno 224%N); lia.
Qed.

Lemma Buffer_from_eq_ascii s a :
  Forall (fun c => (c < 128)%N) a -> Buffer_from s = a -> s = a.
Proof.
  intros Ha Heq. rewrite <- Heq in Ha.
  apply Buffer_from_ascii_inv, Buffer_from_ascii in Ha. congruence.
Qed.

Lemma hex_nonempty width n : (0 < width)%nat -> hex width n <> [].
Proof.
  intros Hw Heq. apply (f_equal length) in Heq. rewrite length_hex in Heq. cbn in Heq. lia.
Qed.

(** X1: the verifier accepts a signature exactly when it is the lower-case
    hexadecimal HMAC-SHA256 digest of the serialized payload under the
    secret. *)
Theorem validateWebhookSignature_accepts_iff
    (rt : Runtime) (payload : JsValue) (signature secret : option JsString) :
  Webhook.validateWebhookSignature payload signature secret = Ok true <->
  exists key text,
    secret = Some key /\ key <> []
    /\ JSON_stringify payload = Some text
    /\ signature = Some (hex 64 (hmac_sha256 key text mod 2 ^ 256)%N).
Proof.
  unfold Webhook.validateWebhookSignature. split.
  - intros H.
    destruct signature as [[|c sig]|]; try discriminate.
    destruct secret as [[|k key]|]; try discriminate.
    destruct (JSON_stringify payload) as [text|]; [|discriminate].
    exists (k :: key), text. repeat split; try discriminate.
    unfold timingSafeEqual in H.
    destruct (Nat.eqb _ _); [|discriminate].
    assert (Hok : forall a b : bool, Ok a = Ok b -> a = b)
      by (intros ? ? [= ->]; reflexivity).
    apply Hok in H. clear Hok. apply bool_decide_eq_true in H.
    rewrite (Buffer_from_ascii (hex 64 _)) in H by apply hex_ascii.
    f_equal. apply Buffer_from_eq_ascii; [apply hex_ascii | exact H].
  - intros (key & text & -> & Hkey & Htext & ->).
    pose proof (hex_nonempty 64 (hmac_sha256 key text mod 2 ^ 256)%N) as Hne.
    destruct (hex 64 _) as [|c sig] eqn:Hhex; [now destruct Hne; [lia|]|].
    destruct key as [|k key]; [congruence|].
    rewrite Htext, <- Hhex.
    rewrite timingSafeEqual_same_length by reflexivity.
    now rewrite bool_decide_eq_true_2.
Qed.

(** X2: with a configured key of ASCII characters, the credential check
    accepts that key, and besides it only an array (the values of a repeated
    [key] parameter) whose elements give the bytes of the configured key.  A
    GET that presents anything but the configured key as a string is
    delivered nothing and changes nothing: it is answered 401, or 500 when
    it presents such an array, on which the hashing of the key throws. *)
Theorem validateApiKey_accepts_iff (rt : Runtime) (env : Env) (validApiKey : JsString) :
  API_KEY env = Some validApiKey ->
  validApiKey <> [] ->
  Forall (fun c => (c < 128)%N) validApiKey ->
  (forall apiKey,
     Donations.validateApiKey env apiKey = true <->
     apiKey = Some (Donations.KeyString validApiKey)
     \/ exists values,
          apiKey = Some (Donations.KeyArray values)
          /\ Buffer_from_array values = validApiKey)
  /\ (forall req now st,
        Donations.method req = js "GET" ->
        presented_key req <> Some (Donations.KeyString validApiKey) ->
        Donations.handler env req now st
        = (if Donations.validateApiKey env (presented_key req)
           then internal_server_error else unauthorized, st)).
Proof.
  intros Henv Hne Hascii.
  assert (Hiff : forall apiKey,
            Donations.validateApiKey env apiKey = true <->
            apiKey = Some (Donations.KeyString validApiKey)
            \/ exists values,
                 apiKey = Some (Donations.KeyArray values)
                 /\ Buffer_from_array values = validApiKey).
  { intros apiKey. unfold Donations.validateApiKey. rewrite Henv.
    destruct validApiKey as [|v valid]; [congruence|].
    rewrite (Buffer_from_ascii (v :: valid)) by exact Hascii.
    unfold timingSafeEqual.
    destruct apiKey as [[[|c key]|values]|].
    - split; [discriminate|]. intros [H|(values & H & _)]; discriminate.
    - split.
      + destruct (Nat.eqb _ _); [|discriminate]. intros H. apply bool_decide_eq_true in H.
        left. do 2 f_equal. now apply Buffer_from_eq_ascii.
      + intros [H|(values & H & _)]; [|discriminate]. injection H as -> ->.
        rewrite (Buffer_from_ascii (v :: valid)) by exact Hascii.
        rewrite Nat.eqb_refl. now apply bool_decide_eq_true_2.
    - split.
      + destruct (Nat.eqb _ _); [|discriminate]. intros H. apply bool_decide_eq_true in H.
        right. now exists values.
      + intros [H|(values' & H & Hbytes)]; [discriminate|]. injection H as ->.
        rewrite Hbytes, Nat.eqb_refl. now apply bool_decide_eq_true_2.
    - split; [discriminate|]. intros [H|(values & H & _)]; discriminate. }
  split; [exact Hiff|].
  intros req now st Hget Hkey. unfold Donations.handler. rewrite Hget.
  fold (presented_key req).
  replace (str_eqb (js "GET") (js "OPTIONS")) with false by reflexivity.
  replace (str_eqb (js "GET") (js "GET")) with true by reflexivity.
  cbn [negb].
  destruct (Donations.validateApiKey env (presented_key req)) eqn:Hcheck; [|reflexivity].
  cbn [negb].
  apply Hiff in Hcheck as [Hcheck|(values & Hcheck & _)]; [contradiction|].
  now rewrite Hcheck.
Qed.

(** X2, instance: the key [k3y]. *)
Lemma validateApiKey_accepts_iff_k3y :
  API_KEY env_without_secret = Some (js "k3y")
  /\ js "k3y" <> []
  /\ Forall (fun c => (c < 128)%N) (js "k3y")
  /\ (forall apiKey,
        @Donations.validateApiKey decimal_runtime env_without_secret apiKey = true <->
        apiKey = Some (Donations.KeyString (js "k3y"))
        \/ exists values,
             apiKey = Some (Donations.KeyArray values)
             /\ @Buffer_from_array decimal_runtime values = js "k3y")
  /\ (forall req now st,
        Donations.method req = js "GET" ->
        presented_key req <> Some (Donations.KeyString (js "k3y")) ->
        @Donations.handler decimal_runtime env_without_secret req now st
        = (if @Donations.validateApiKey decimal_runtime env_without_secret (presented_key req)
           then internal_server_error else unauthorized, st)).
Proof.
  assert (H1 : API_KEY env_without_secret = Some (js "k3y")) by reflexivity.
  assert (H2 : js "k3y" <> []) by discriminate.
  assert (H3 : Forall (fun c => (c < 128)%N) (js "k3y")).
  { refine (bool_decide_unpack _ _). vm_compute. exact I. }
  split; [exact H1|]. split; [exact H2|]. split; [exact H3|].
  exact (validateApiKey_accepts_iff decimal_runtime env_without_secret (js "k3y") H1 H2 H3).
Defined.

(** A repeated [key] parameter whose values are the decimal byte values of
    the configured key passes the credential check, and the retrieval is
    answered 500; another array, or no key, is answered 401. *)
Example repeated_key_parameter :
  @Donations.validateApiKey decimal_runtime env_without_secret
    (presented_key get_donations_repeated_key) = true
  /\ @Donations.handler decimal_runtime env_without_secret
       get_donations_repeated_key 2000 initial_state
     = (internal_server_error, initial_state)
  /\ @Donations.handler decimal_runtime env_without_secret
       {| Donations.method := js "GET"; Donations.x_api_key := None;
          Donations.query_key := Some (Donations.KeyArray [js "k3y"; js "k3y"]) |}
       2000 initial_state
     = (unauthorized, initial_state)
  /\ @Donations.handler decimal_runtime env_without_secret
       {| Donations.method := js "GET"; Donations.x_api_key := None;
          Donations.query_key := None |}
       2000 initial_state
     = (unauthorized, initial_state).
Proof. vm_compute. repeat split. Qed.
(** ** Rate limiting over a run *)


Lemma tracks_later last last' stored A :
  tracks last stored A -> last <= last' -> tracks last' stored A.
Proof. intros H Hle now Hnow. apply H. lia. Qed.

Lemma tracks_allowed last now stored A :
  tracks last stored A -> last <= now ->
  tracks now (filter (within now) stored ++ [now]) (A ++ [now]).
Proof.
  intros H Hle now' Hnow'. rewrite !filter_app. f_equal.
  rewrite list_filter_filter, <- (H now') by lia.
  apply list_filter_iff. intros time. unfold within. lia.
Qed.

Lemma bounded_window (limit : nat) A L t :
  bounded_from limit A L ->
  (length (filter (in_window t) A) <= limit)%nat ->
  (length (filter (in_window t) (A ++ L)) <= limit)%nat.
Proof.
  revert A. induction L as [|m L IH]; intros A Hbounded HA.
  - now rewrite app_nil_r.
  - destruct Hbounded as [Hm Hrest].
    replace (A ++ m :: L) with ((A ++ [m]) ++ L) by now rewrite <- app_assoc.
    apply IH; [exact Hrest|].
    rewrite filter_app, length_app, filter_cons, filter_nil.
    destruct (decide (in_window t m)) as [Hin|Hout]; [|cbn; lia].
    cbn [length].
    assert (Hsub : (length (filter (in_window t) A) <= length (filter (within m) A))%nat).
    { clear -Hin. induction A as [|a A IH]; [cbn; lia|].
      rewrite !filter_cons.
      destruct (decide (in_window t a)) as [Ha|Ha], (decide (within m a)) as [Hm|Hm];
        unfold in_window, within in *; cbn [length]; lia. }
    lia.
Qed.


Section LimiterFacts.
Context {rt : Runtime}.
Variable env : Env.

(** What a submission does to the limiter maps. *)
Lemma webhook_handler_limiter req io st :
  let '(response, st') := Webhook.handler env req io st in
  robloxRateLimit st' = robloxRateLimit st
  /\ if str_eqb (Webhook.method req) (js "POST")
     then let '(allowed, st1) :=
            Webhook.checkRateLimit (client_ip req) (Webhook.now_limit io) st in
          webhookRateLimit st' = webhookRateLimit st1
          /\ (status response =? 429) = negb allowed
     else webhookRateLimit st' = webhookRateLimit st.
Proof.
  unfold Webhook.handler.
  destruct (str_eqb (Webhook.method req) (js "POST")) eqn:Hpost.
  - apply bool_decide_eq_true in Hpost. rewrite Hpost.
    replace (str_eqb (js "POST") (js "OPTIONS")) with false by reflexivity.
    replace (str_eqb (js "POST") (js "POST")) with true by reflexivity.
    cbn [negb].
    pose proof (checkRateLimit_frame (client_ip req) (Webhook.now_limit io) st) as Hframe.
    unfold Webhook.handle. fold (client_ip req) (presented_signature req).
    fold (signature_verdict env req).
    destruct (Webhook.checkRateLimit (client_ip req) (Webhook.now_limit io) st)
      as [allowed st1].
    cbn [snd] in Hframe. destruct Hframe as (_ & _ & _ & Hroblox).
    destruct allowed; cbn [negb]; [|now repeat split].
    destruct (signature_verdict env req) as [[|]|e]; [|now repeat split..].
    destruct (validateDonationData (Webhook.body req)) as [[|]|e]; [|now repeat split..].
    destruct (Webhook.donation_key (Webhook.body req) (Webhook.now_key io)) as [key|e];
      [|now repeat split].
    unfold Webhook.isDuplicate.
    destruct (bool_decide (key ∈ recentDonationIds st1)); [now repeat split|].
    destruct (Webhook.new_donation (Webhook.body req) io) as [donation|e];
      [|now repeat split].
    destruct (store_donation_frame donation (Webhook.now_sweep io)
                (set_recentDonationIds ({[key]} ∪ recentDonationIds st1)
                   (pendingTimeouts st1 ++ [key]) st1)) as (Hw & _ & _ & Hr).
    rewrite Hw, Hr. now repeat split.
  - destruct (str_eqb (Webhook.method req) (js "OPTIONS")); now split.
Qed.

(** What a retrieval does to the limiter maps. *)
Lemma donations_handler_limiter req now st :
  let '(response, st') := Donations.handler env req now st in
  webhookRateLimit st' = webhookRateLimit st
  /\ recentDonationIds st' = recentDonationIds st
  /\ pendingTimeouts st' = pendingTimeouts st
  /\ ((exists success count ds,
         json response = DonationsBody success count ds
         /\ Donations.checkRobloxRateLimit (poll_identifier req) now st
            = (true, set_robloxRateLimit (robloxRateLimit st') st))
      \/ ((forall success count ds, json response <> DonationsBody success count ds)
          /\ robloxRateLimit st' = robloxRateLimit st)).
Proof.
  unfold Donations.handler.
  destruct (str_eqb (Donations.method req) (js "OPTIONS"));
    [repeat split; right; split; [discriminate | reflexivity]|].
  destruct (negb (str_eqb (Donations.method req) (js "GET")));
    [repeat split; right; split; [discriminate | reflexivity]|].
  destruct (negb (Donations.validateApiKey env _));
    [repeat split; right; split; [discriminate | reflexivity]|].
  unfold poll_identifier, presented_key.
  destruct (Donations.header_or_query _ _) as [[apiKey|values]|];
    [|repeat split; right; split; [discriminate | reflexivity]..].
  unfold Donations.checkRobloxRateLimit.
  destruct (_ <=? _)%nat; cbn [negb];
    [repeat split; right; split; [discriminate | reflexivity]|].
  repeat split. left. do 3 eexists. split; reflexivity.
Qed.

End LimiterFacts.

Section LimiterRuns.
Context {rt : Runtime}.
Variable env : Env.

Lemma checkRateLimit_allowed ip now st st1 :
  Webhook.checkRateLimit ip now st = (true, st1) ->
  let pruned := filter (within now) (default [] (webhookRateLimit st !! ip)) in
  (length pruned < 10)%nat
  /\ webhookRateLimit st1 = <[ip := pruned ++ [now]]> (webhookRateLimit st).
Proof.
  unfold Webhook.checkRateLimit. rewrite (filter_window now RATE_LIMIT_WINDOW).
  change (filter (fun time => now - time < RATE_LIMIT_WINDOW) ?l) with (filter (within now) l).
  destruct (_ <=? _)%nat eqn:Hfull; [discriminate|].
  apply Nat.leb_gt in Hfull. intros [= <-]. split; [exact Hfull | reflexivity].
Qed.

Lemma checkRobloxRateLimit_allowed identifier now st st1 :
  Donations.checkRobloxRateLimit identifier now st = (true, st1) ->
  let pruned := filter (within now) (default [] (robloxRateLimit st !! identifier)) in
  (length pruned < 60)%nat
  /\ robloxRateLimit st1 = <[identifier := pruned ++ [now]]> (robloxRateLimit st).
Proof.
  unfold Donations.checkRobloxRateLimit. rewrite (filter_window now RATE_LIMIT_WINDOW).
  change (filter (fun time => now - time < RATE_LIMIT_WINDOW) ?l) with (filter (within now) l).
  destruct (_ <=? _)%nat eqn:Hfull; [discriminate|].
  apply Nat.leb_gt in Hfull. intros [= <-]. split; [exact Hfull | reflexivity].
Qed.

Lemma submissions_bounded ip evs st A last :
  tracks last (default [] (webhookRateLimit st !! ip)) A ->
  StronglySorted Z.le (flat_map clock_readings evs) ->
  Forall (Z.le last) (flat_map clock_readings evs) ->
  bounded_from 10 A (collect env (fun ev r => passed_limiter ev r ip) st evs).
Proof.
  revert st A last.
  induction evs as [|ev evs IH]; intros st A last Htracks Hsorted Hlast; [exact I|].
  cbn [collect flat_map] in *.
  apply StronglySorted_app in Hsorted as (Hcross & _ & Hrest).
  apply Forall_app in Hlast as [Hnow Hlater].
  destruct (step env st ev) as [response st'] eqn:Hs.
  assert (Hsame : webhookRateLimit st' !! ip = webhookRateLimit st !! ip ->
                  bounded_from 10 A (collect env (fun ev r => passed_limiter ev r ip) st' evs)).
  { intros Heq. apply (IH st' A last); [now rewrite Heq | exact Hrest | exact Hlater]. }
  destruct ev as [req io|req now|key]; cbn [step] in Hs.
  - pose proof (webhook_handler_limiter env req io st) as H.
    destruct (Webhook.handler env req io st) as [r st0]. injection Hs as <- <-.
    destruct H as [_ H]. cbn [passed_limiter].
    destruct (str_eqb (Webhook.method req) (js "POST")); cbn [andb];
      [|cbn [app]; apply Hsame; now rewrite H].
    destruct (Webhook.checkRateLimit (client_ip req) (Webhook.now_limit io) st)
      as [allowed st1] eqn:Hcheck.
    destruct H as [Hmap Hstatus]. rewrite Hstatus.
    destruct allowed; cbn [negb].
    + apply checkRateLimit_allowed in Hcheck as [Hcount Hst1].
      rewrite Hst1 in Hmap.
      destruct (decide (client_ip req = ip)) as [Hip|Hother].
      * rewrite bool_decide_eq_true_2 by exact Hip. rewrite Hip in *.
        cbn [andb app bounded_from].
        apply Forall_cons in Hnow as [Hnow _].
        split.
        -- now rewrite <- (Htracks (Webhook.now_limit io) Hnow).
        -- apply (IH st0 _ (Webhook.now_limit io)).
           ++ rewrite Hmap, lookup_insert_eq. cbn [default].
              now apply (tracks_allowed last).
           ++ exact Hrest.
           ++ apply Forall_forall. intros x Hx. apply Hcross; [|exact Hx].
              cbn [clock_readings]. left.
      * rewrite bool_decide_eq_false_2 by exact Hother. cbn [andb app].
        apply Hsame. rewrite Hmap. now apply lookup_insert_ne.
    + rewrite andb_false_r. cbn [app].
      apply checkRateLimit_rejects in Hcheck as ->. apply Hsame. now rewrite Hmap.
  - pose proof (donations_handler_limiter env req now st) as H.
    destruct (Donations.handler env req now st) as [r st0]. injection Hs as <- <-.
    destruct H as [H _]. cbn [passed_limiter app]. apply Hsame. now rewrite H.
  - injection Hs as <- <-. cbn [passed_limiter app]. apply Hsame.
    destruct (bool_decide _); reflexivity.
Qed.

Lemma polls_bounded identifier evs st A last :
  tracks last (default [] (robloxRateLimit st !! identifier)) A ->
  StronglySorted Z.le (flat_map clock_readings evs) ->
  Forall (Z.le last) (flat_map clock_readings evs) ->
  bounded_from 60 A (collect env (fun ev r => served_poll ev r identifier) st evs).
Proof.
  revert st A last.
  induction evs as [|ev evs IH]; intros st A last Htracks Hsorted Hlast; [exact I|].
  cbn [collect flat_map] in *.
  apply StronglySorted_app in Hsorted as (Hcross & _ & Hrest).
  apply Forall_app in Hlast as [Hnow Hlater].
  destruct (step env st ev) as [response st'] eqn:Hs.
  assert (Hsame : robloxRateLimit st' !! identifier = robloxRateLimit st !! identifier ->
                  bounded_from 60 A
                    (collect env (fun ev r => served_poll ev r identifier) st' evs)).
  { intros Heq. apply (IH st' A last); [now rewrite Heq | exact Hrest | exact Hlater]. }
  destruct ev as [req io|req now|key]; cbn [step] in Hs.
  - pose proof (webhook_handler_limiter env req io st) as H.
    destruct (Webhook.handler env req io st) as [r st0]. injection Hs as <- <-.
    destruct H as [H _]. cbn [served_poll app]. apply Hsame. now rewrite H.
  - pose proof (donations_handler_limiter env req now st) as H.
    destruct (Donations.handler env req now st) as [r st0]. injection Hs as <- <-.
    destruct H as (_ & _ & _ & H). cbn [served_poll].
    destruct H as [(success & count & ds & Hjson & Hcheck)|[Hno Hmap]].
    + destruct r as [code body]. cbn [json] in Hjson. subst body.
      apply checkRobloxRateLimit_allowed in Hcheck as [Hcount Hst1].
      cbn [robloxRateLimit set_robloxRateLimit] in Hst1.
      destruct (decide (poll_identifier req = identifier)) as [Hid|Hother].
      * rewrite bool_decide_eq_true_2 by exact Hid. rewrite Hid in *.
        cbn [app bounded_from].
        apply Forall_cons in Hnow as [Hnow _].
        split.
        -- now rewrite <- (Htracks now Hnow).
        -- apply (IH st0 _ now).
           ++ rewrite Hst1, lookup_insert_eq. cbn [default].
              now apply (tracks_allowed last).
           ++ exact Hrest.
           ++ apply Forall_forall. intros x Hx. apply Hcross; [|exact Hx].
              cbn [clock_readings]. left.
      * rewrite bool_decide_eq_false_2 by exact Hother. cbn [app].
        apply Hsame. rewrite Hst1. now apply lookup_insert_ne.
    + destruct r as [code [| | |success count ds]]; cbn [app]; try (apply Hsame; now rewrite Hmap).
      now destruct (Hno success count ds).
  - injection Hs as <- <-. cbn [served_poll app]. apply Hsame.
    destruct (bool_decide _); reflexivity.
Qed.

End LimiterRuns.

(** X3: in a chronological run from the initial state, at most ten submissions
    of one origin pass the rate limiter in any window of 60 seconds, and at
    most sixty retrievals under one identity are served in any such
    window. *)
Theorem limiters_bound_every_window (rt : Runtime) (env : Env) (evs : list Event) :
  chronological evs ->
  (forall ip t,
     (length (filter (in_window t)
                (collect env (fun ev r => passed_limiter ev r ip) initial_state evs))
      <= 10)%nat)
  /\ (forall identifier t,
        (length (filter (in_window t)
                   (collect env (fun ev r => served_poll ev r identifier)
                      initial_state evs))
         <= 60)%nat).
Proof.
  intros Hclock.
  assert (Hsorted : StronglySorted Z.le (flat_map clock_readings evs)).
  { apply Sorted_StronglySorted; [|exact Hclock]. intros x y z. apply Z.le_trans. }
  assert (Hlast : exists last, Forall (Z.le last) (flat_map clock_readings evs)).
  { destruct (flat_map clock_readings evs) as [|first l]; [exists 0; constructor|].
    exists first. apply StronglySorted_cons in Hsorted as [Hall _].
    constructor; [lia | exact Hall]. }
  destruct Hlast as [last Hlast].
  split.
  - intros ip t.
    apply (bounded_window 10 [] _ t); [|cbn; lia].
    apply (submissions_bounded env ip evs initial_state [] last); try assumption.
    intros now _. reflexivity.
  - intros identifier t.
    apply (bounded_window 60 [] _ t); [|cbn; lia].
    apply (polls_bounded env identifier evs initial_state [] last); try assumption.
    intros now _. reflexivity.
Qed.

(** X3, instance: the burst of twelve submissions of one origin. *)
Lemma limiters_bound_every_window_burst :
  chronological burst
  /\ (forall ip t,
        (length (filter (in_window t)
                   (@collect sample_runtime env_without_secret
                      (fun ev r => passed_limiter ev r ip) initial_state burst))
         <= 10)%nat)
  /\ (forall identifier t,
        (length (filter (in_window t)
                   (@collect sample_runtime env_without_secret
                      (fun ev r => @served_poll sample_runtime ev r identifier)
                      initial_state burst))
         <= 60)%nat).
Proof.
  assert (H : chronological burst).
  { unfold chronological. cbn. repeat constructor; lia. }
  split; [exact H|].
  exact (limiters_bound_every_window sample_runtime env_without_secret burst H).
Defined.

Example burst_passes_ten :
  @collect sample_runtime env_without_secret
    (fun ev r => passed_limiter ev r (Some (js "10.0.0.1"))) initial_state burst
  = List.map (fun i => 1000 + Z.of_nat i) (seq 0 10).
Proof. vm_compute. reflexivity. Qed.

Section LimiterMemory.
Context {rt : Runtime}.
Variable env : Env.

(** One event leaves an entry of a limiter map as it is, or replaces it by
    its pruned window with the reading of the clock appended. *)
Lemma step_limiter_entries st ev :
  let st' := snd (step env st ev) in
  (forall ip,
     webhookRateLimit st' !! ip = webhookRateLimit st !! ip
     \/ exists now,
          let pruned := filter (within now) (default [] (webhookRateLimit st !! ip)) in
          (length pruned < 10)%nat /\ webhookRateLimit st' !! ip = Some (pruned ++ [now]))
  /\ (forall identifier,
        robloxRateLimit st' !! identifier = robloxRateLimit st !! identifier
        \/ exists now,
             let pruned :=
               filter (within now) (default [] (robloxRateLimit st !! identifier)) in
             (length pruned < 60)%nat
             /\ robloxRateLimit st' !! identifier = Some (pruned ++ [now])).
Proof.
  destruct ev as [req io|req now|key]; cbn [step].
  - pose proof (webhook_handler_limiter env req io st) as H.
    destruct (Webhook.handler env req io st) as [r st0]. cbn [snd].
    destruct H as [Hroblox H]. split; [|intros identifier; left; now rewrite Hroblox].
    intros ip.
    destruct (str_eqb (Webhook.method req) (js "POST")); [|left; now rewrite H].
    destruct (Webhook.checkRateLimit (client_ip req) (Webhook.now_limit io) st)
      as [[|] st1] eqn:Hcheck; destruct H as [Hmap _].
    + apply checkRateLimit_allowed in Hcheck as [Hcount Hst1]. rewrite Hmap, Hst1.
      destruct (decide (client_ip req = ip)) as [<-|Hother].
      * right. exists (Webhook.now_limit io). split; [exact Hcount|].
        now rewrite lookup_insert_eq.
      * left. now apply lookup_insert_ne.
    + apply checkRateLimit_rejects in Hcheck as ->. left. now rewrite Hmap.
  - pose proof (donations_handler_limiter env req now st) as H.
    destruct (Donations.handler env req now st) as [r st0]. cbn [snd].
    destruct H as (Hwebhook & _ & _ & H). split; [intros ip; left; now rewrite Hwebhook|].
    intros identifier.
    destruct H as [(success & count & ds & _ & Hcheck)|[_ Hmap]]; [|left; now rewrite Hmap].
    apply checkRobloxRateLimit_allowed in Hcheck as [Hcount Hst1].
    cbn [robloxRateLimit set_robloxRateLimit] in Hst1. rewrite Hst1.
    destruct (decide (poll_identifier req = identifier)) as [<-|Hother].
    + right. exists now. split; [exact Hcount|]. now rewrite lookup_insert_eq.
    + left. now apply lookup_insert_ne.
  - cbn [snd]. split; intros; left; destruct (bool_decide _); reflexivity.
Qed.

Lemma run_app evs evs' st :
  snd (run env st (evs ++ evs')) = snd (run env (snd (run env st evs)) evs').
Proof.
  revert st. induction evs as [|ev evs IH]; intros st; [reflexivity|].
  cbn [run app]. destruct (step env st ev) as [response st1].
  specialize (IH st1).
  destruct (run env st1 (evs ++ evs')) as [responses st2].
  destruct (run env st1 evs) as [responses1 st3]. exact IH.
Qed.

Lemma run_limiter_windows evs st :
  map_Forall (fun _ l => (1 <= length l <= 10)%nat) (webhookRateLimit st) ->
  map_Forall (fun _ l => (1 <= length l <= 60)%nat) (robloxRateLimit st) ->
  let st' := snd (run env st evs) in
  map_Forall (fun _ l => (1 <= length l <= 10)%nat) (webhookRateLimit st')
  /\ map_Forall (fun _ l => (1 <= length l <= 60)%nat) (robloxRateLimit st').
Proof.
  revert st. induction evs as [|ev evs IH]; intros st Hw Hr; [now split|].
  cbn [run]. pose proof (step_limiter_entries st ev) as [Hw1 Hr1].
  destruct (step env st ev) as [response st1]. cbn [snd] in Hw1, Hr1.
  specialize (IH st1).
  destruct (run env st1 evs) as [responses st2]. cbn [snd] in *.
  apply IH.
  - intros ip l Hl. destruct (Hw1 ip) as [Heq|(now & Hcount & Heq)]; rewrite Heq in Hl.
    + exact (Hw ip l Hl).
    + injection Hl as <-. rewrite length_app. cbn [length]. lia.
  - intros identifier l Hl.
    destruct (Hr1 identifier) as [Heq|(now & Hcount & Heq)]; rewrite Heq in Hl.
    + exact (Hr identifier l Hl).
    + injection Hl as <-. rewrite length_app. cbn [length]. lia.
Qed.

Lemma run_limiter_keys evs st :
  let st' := snd (run env st evs) in
  dom (webhookRateLimit st) ⊆ dom (webhookRateLimit st')
  /\ dom (robloxRateLimit st) ⊆ dom (robloxRateLimit st').
Proof.
  revert st. induction evs as [|ev evs IH]; intros st; [now split|].
  cbn [run]. pose proof (step_limiter_entries st ev) as [Hw1 Hr1].
  destruct (step env st ev) as [response st1]. cbn [snd] in Hw1, Hr1.
  specialize (IH st1).
  destruct (run env st1 evs) as [responses st2]. cbn [snd] in *.
  destruct IH as [IHw IHr]. split.
  - etransitivity; [|exact IHw]. intros ip Hip. apply elem_of_dom in Hip.
    apply elem_of_dom. destruct (Hw1 ip) as [Heq|(now & _ & Heq)]; rewrite Heq; eauto.
  - etransitivity; [|exact IHr]. intros identifier Hid. apply elem_of_dom in Hid.
    apply elem_of_dom.
    destruct (Hr1 identifier) as [Heq|(now & _ & Heq)]; rewrite Heq; eauto.
Qed.

End LimiterMemory.

(** X4: whatever is submitted and retrieved, a stored window of the submission
    limiter holds between one and ten readings, and one of the retrieval
    limiter between one and sixty. *)
Theorem limiter_windows_stay_small (rt : Runtime) (env : Env) (evs : list Event) :
  let st := snd (run env initial_state evs) in
  map_Forall (fun _ requests => (1 <= length requests <= 10)%nat) (webhookRateLimit st)
  /\ map_Forall (fun _ requests => (1 <= length requests <= 60)%nat) (robloxRateLimit st).
Proof.
  apply run_limiter_windows; cbn; apply map_Forall_empty.
Qed.

(** X5: neither limiter ever removes an entry: an origin or identity that has
    an entry at some point of a run has one at every later point. *)
Theorem limiter_entries_are_never_removed
    (rt : Runtime) (env : Env) (st : State) (evs evs' : list Event) :
  dom (webhookRateLimit (snd (run env st evs)))
    ⊆ dom (webhookRateLimit (snd (run env st (evs ++ evs'))))
  /\ dom (robloxRateLimit (snd (run env st evs)))
       ⊆ dom (robloxRateLimit (snd (run env st (evs ++ evs')))).
Proof.
  rewrite run_app. apply run_limiter_keys.
Qed.
(** ** Sanitized donations *)

Lemma trim_start_split s :
  exists spaces, s = spaces ++ trim_start s /\ Forall (fun c => is_js_space c = true) spaces.
Proof.
  induction s as [|c s (spaces & Hs & Hall)]; [exists []; split; [reflexivity | constructor]|].
  cbn [trim_start]. destruct (is_js_space c) eqn:Hc.
  - exists (c :: spaces). split; [cbn; now f_equal | now constructor].
  - exists []. split; [reflexivity | constructor].
Qed.

Lemma trim_start_head s c : head (trim_start s) = Some c -> is_js_space c = false.
Proof.
  induction s as [|c' s IH]; [discriminate|].
  cbn [trim_start]. destruct (is_js_space c') eqn:Hc; [exact IH|].
  cbn. now intros [= <-].
Qed.

(** [trim] removes white space at both ends and nothing else. *)
Lemma trim_split s :
  exists before after,
    s = before ++ trim s ++ after
    /\ Forall (fun c => is_js_space c = true) before
    /\ Forall (fun c => is_js_space c = true) after.
Proof.
  unfold trim.
  destruct (trim_start_split s) as (before & Hs & Hbefore).
  destruct (trim_start_split (rev (trim_start s))) as (after & Hr & Hafter).
  exists before, (rev after). split; [|split; [exact Hbefore | now apply Forall_rev]].
  rewrite <- rev_app_distr, <- Hr, rev_involutive. exact Hs.
Qed.

Lemma trim_trimmed s : trimmed (trim s).
Proof.
  unfold trim, trimmed. split; intros c Hc.
  - destruct (trim_start_split (rev (trim_start s))) as (after & Hr & _).
    apply (f_equal (@rev N)) in Hr. rewrite rev_involutive, rev_app_distr in Hr.
    apply (trim_start_head s). rewrite Hr.
    destruct (rev (trim_start (rev (trim_start s)))); [discriminate | exact Hc].
  - apply (trim_start_head (rev (trim_start s))).
    apply last_Some in Hc as [front Hc].
    apply (f_equal (@rev N)) in Hc. rewrite rev_involutive, rev_app_distr in Hc.
    now rewrite Hc.
Qed.

Lemma trim_length s : (length (trim s) <= length s)%nat.
Proof.
  destruct (trim_split s) as (before & after & Hs & _).
  rewrite Hs at 2. rewrite !length_app. lia.
Qed.

Lemma trim_Forall (P : N -> Prop) s : Forall P s -> Forall P (trim s).
Proof.
  destruct (trim_split s) as (before & after & Hs & _).
  intros H. rewrite Hs in H.
  apply Forall_app in H as [_ H]. now apply Forall_app in H as [H _].
Qed.

Lemma trim_all_spaces s : Forall (fun c => is_js_space c = true) s -> trim s = [].
Proof.
  intros H. destruct (trim s) as [|c rest] eqn:Ht; [reflexivity|].
  pose proof (trim_trimmed s) as [Hhead _]. rewrite Ht in Hhead.
  specialize (Hhead c eq_refl).
  apply trim_Forall in H. rewrite Ht in H. apply Forall_cons in H as [H _]. congruence.
Qed.

Lemma hex_digit_char d : (d < 16)%N -> hex_char (hex_digit d).
Proof. unfold hex_digit, hex_char. destruct (N.ltb_spec d 10); lia. Qed.

Lemma hex_chars width n : Forall hex_char (hex width n).
Proof.
  revert n. induction width as [|w IH]; intros n; [constructor|].
  cbn [hex]. apply Forall_app. split; [apply IH|].
  constructor; [|constructor]. apply hex_digit_char, N.mod_lt. lia.
Qed.

Section SanitizedFacts.
Context {rt : Runtime}.

(** The shape of a payload that the validator accepts, message included. *)
Lemma validated_fields data :
  validateDonationData data = Ok true ->
  exists props name z,
    data = VObj props
    /\ own_property props (js "donor_name") = VStr name
    /\ own_property props (js "amount") = VNum (Int z)
    /\ name <> [] /\ (length name <= 50)%nat /\ Forall name_char name
    /\ 0 < z <= 100000000
    /\ message_too_longb (own_property props (js "message")) = false.
Proof.
  intros H. destruct data as [| |b|x|s|l|props];
    try (rewrite validate_not_object in H by discriminate; discriminate).
  rewrite validate_object_bool in H. injection H as H.
  apply andb_true_iff in H as [H Hm]. apply andb_true_iff in H as [Hn Ha].
  apply negb_true_iff in Hm.
  exists props.
  destruct (own_property props (js "donor_name")) as [| |b|x|s|l|ps]; try discriminate.
  destruct (own_property props (js "amount")) as [| |b|x|s'|l|ps]; try discriminate.
  destruct x as [|neg|z]; try discriminate.
  exists s, z. cbn in Ha. apply andb_true_iff in Ha as [H1 H2].
  apply Z.ltb_lt in H1. apply Z.leb_le in H2.
  cbn [name_acceptableb] in Hn. apply andb_true_iff in Hn as [Hre Hlen].
  apply Nat.leb_le in Hlen. apply donor_name_regex_test_iff in Hre as [Hne Hall].
  repeat split; try assumption.
Qed.

End SanitizedFacts.

Section AdmissionFacts.
Context {rt : Runtime}.

(** The donation object that is created from an accepted payload; the
    creation throws exactly on a truthy message that is not a string. *)
Lemma new_donation_validated data io :
  validateDonationData data = Ok true ->
  exists name z,
    field data "donor_name" = VStr name /\ field data "amount" = VNum (Int z)
    /\ name <> [] /\ (length name <= 50)%nat /\ Forall name_char name
    /\ 0 < z <= 100000000
    /\ message_too_longb (field data "message") = false
    /\ Webhook.new_donation data io
       = if truthy (field data "message") && negb (is_string (field data "message"))
         then Throw TypeError
         else Ok {| Donation.id := issued_id io;
                    Donation.donor_name := trim name;
                    Donation.amount := Int z;
                    Donation.message := stored_message data;
                    Donation.timestamp := Webhook.now_stamp io;
                    Donation.processed := false |}.
Proof.
  intros H.
  apply validated_fields in H as (props & name & z & -> & Hn & Ha & Hne & Hlen & Hall & Hz & Hm).
  exists name, z. unfold stored_message. cbn [field].
  repeat (split; [assumption|]).
  unfold Webhook.new_donation. rewrite !get_object, Hn, Ha. cbn [mbind Result_bind].
  destruct (own_property props (js "message")) as [| |[|]|[|neg|x]|s|l|ps];
    try reflexivity.
  - cbn [truthy]. destruct (x =? 0); reflexivity.
  - cbn [truthy is_string typeof negb andb]. rewrite andb_false_r.
    destruct s as [|c s]; reflexivity.
Qed.

Lemma stored_message_short data :
  message_too_longb (field data "message") = false ->
  (length (stored_message data) <= 200)%nat.
Proof.
  unfold stored_message, message_too_longb.
  destruct (field data "message") as [| |b|x|s|l|ps]; cbn [length]; try lia.
  intros H. etransitivity; [apply trim_length|].
  destruct s as [|c s]; [cbn; lia|].
  cbn [truthy length Nat.eqb negb andb] in H. now apply Nat.ltb_ge in H.
Qed.

Lemma stored_message_trimmed data : trimmed (stored_message data).
Proof.
  unfold stored_message.
  destruct (field data "message"); try (split; discriminate). apply trim_trimmed.
Qed.

Lemma new_donation_sanitized data io donation :
  validateDonationData data = Ok true ->
  Webhook.new_donation data io = Ok donation ->
  sanitized (Donations.public_view donation).
Proof.
  intros Hvalid Hnew.
  destruct (new_donation_validated data io Hvalid)
    as (name & z & _ & _ & _ & Hlen & Hall & Hz & Hm & Heq).
  rewrite Heq in Hnew. destruct (_ && _); [discriminate|]. injection Hnew as <-.
  unfold sanitized, Donations.public_view, issued_id.
  cbn [public_id public_donor_name public_amount public_message
       Donation.id Donation.donor_name Donation.amount Donation.message].
  split; [apply length_hex|]. split; [apply hex_chars|].
  split; [etransitivity; [apply trim_length | exact Hlen]|].
  split; [now apply trim_Forall|]. split; [apply trim_trimmed|].
  split; [now exists z|].
  split; [now apply stored_message_short | apply stored_message_trimmed].
Qed.

End AdmissionFacts.

(** X6: a payload that the validator accepts yields, unless its message is a
    truthy value that is not a string, a donation in sanitized form: an
    identifier of 32 hexadecimal digits, the donor name and the message
    trimmed of white space at both ends and within their limits of 50 and
    200 characters, the amount as submitted, in the accepted range, and the
    flag unprocessed. *)
Theorem admitted_donation_is_sanitized
    (rt : Runtime) (data : JsValue) (io : Webhook.Readings) :
  validateDonationData data = Ok true ->
  (truthy (field data "message") = true -> is_string (field data "message") = true) ->
  exists donation name,
    Webhook.new_donation data io = Ok donation
    /\ sanitized (Donations.public_view donation)
    /\ field data "donor_name" = VStr name
    /\ Donation.donor_name donation = trim name
    /\ field data "amount" = VNum (Donation.amount donation)
    /\ Donation.message donation = stored_message data
    /\ Donation.timestamp donation = Webhook.now_stamp io
    /\ Donation.processed donation = false.
Proof.
  intros Hvalid Hmessage.
  destruct (new_donation_validated data io Hvalid)
    as (name & z & Hn & Ha & _ & _ & _ & _ & _ & Heq).
  assert (Hno : truthy (field data "message") && negb (is_string (field data "message"))
                = false).
  { destruct (truthy (field data "message")); [|reflexivity].
    now rewrite Hmessage. }
  rewrite Hno in Heq. eexists. exists name. split; [exact Heq|].
  split; [exact (new_donation_sanitized data io _ Hvalid Heq)|].
  cbn [Donation.donor_name Donation.amount Donation.message Donation.timestamp
       Donation.processed].
  repeat split; assumption.
Qed.

(** X6, instance: the padded sample payload. *)
Lemma admitted_donation_is_sanitized_padded_alice :
  @validateDonationData sample_runtime padded_alice = Ok true
  /\ (truthy (field padded_alice "message") = true ->
      is_string (field padded_alice "message") = true)
  /\ exists donation name,
       Webhook.new_donation padded_alice (at_time 1000 7) = Ok donation
       /\ sanitized (Donations.public_view donation)
       /\ field padded_alice "donor_name" = VStr name
       /\ Donation.donor_name donation = trim name
       /\ field padded_alice "amount" = VNum (Donation.amount donation)
       /\ Donation.message donation = stored_message padded_alice
       /\ Donation.timestamp donation = Webhook.now_stamp (at_time 1000 7)
       /\ Donation.processed donation = false.
Proof.
  assert (H1 : @validateDonationData sample_runtime padded_alice = Ok true)
    by (vm_compute; reflexivity).
  assert (H2 : truthy (field padded_alice "message") = true ->
               is_string (field padded_alice "message") = true)
    by (intros _; vm_compute; reflexivity).
  split; [exact H1|]. split; [exact H2|].
  exact (admitted_donation_is_sanitized sample_runtime padded_alice (at_time 1000 7) H1 H2).
Defined.

Example padded_alice_stored :
  Webhook.new_donation padded_alice (at_time 1000 7)
  = Ok {| Donation.id := js "00000000000000000000000000000007";
          Donation.donor_name := js "Alice";
          Donation.amount := Int 5000;
          Donation.message := js "hi";
          Donation.timestamp := 1000;
          Donation.processed := false |}.
Proof. vm_compute. reflexivity. Qed.

(** X7: a donor name that consists of white space only passes the validator,
    and the donation is stored with the empty name. *)
Theorem blank_donor_name_is_stored_empty
    (rt : Runtime) (props : list (JsString * JsValue)) (name : JsString) (z : Z)
    (io : Webhook.Readings) :
  own_property props (js "donor_name") = VStr name ->
  name <> [] -> (length name <= 50)%nat ->
  Forall (fun c => is_js_space c = true) name ->
  own_property props (js "amount") = VNum (Int z) -> 0 < z <= 100000000 ->
  own_property props (js "message") = VUndefined ->
  validateDonationData (VObj props) = Ok true
  /\ exists donation,
       Webhook.new_donation (VObj props) io = Ok donation
       /\ Donation.donor_name donation = [].
Proof.
  intros Hname Hne Hlen Hblank Hamount Hz Hmessage.
  assert (Hvalid : validateDonationData (VObj props) = Ok true).
  { rewrite validate_object_bool, Hname, Hamount, Hmessage.
    cbn [name_acceptableb amount_acceptableb message_too_longb truthy andb negb].
    replace (donor_name_regex_test name) with true.
    - destruct (Nat.leb_spec (length name) 50), (Z.ltb_spec 0 z), (Z.leb_spec z 100000000);
        try lia; reflexivity.
    - symmetry. apply donor_name_regex_test_iff. split; [exact Hne|].
      eapply Forall_impl; [exact Hblank|]. intros c Hc. unfold name_char. tauto. }
  split; [exact Hvalid|].
  destruct (new_donation_validated (VObj props) io Hvalid)
    as (name' & z' & Hn & _ & _ & _ & _ & _ & _ & Heq).
  cbn [field] in Hn, Heq. rewrite Hname in Hn. injection Hn as <-.
  rewrite Hmessage in Heq. cbn [truthy andb] in Heq.
  eexists. split; [exact Heq|]. cbn [Donation.donor_name]. now apply trim_all_spaces.
Qed.

(** X7, instance: a name of three spaces. *)
Lemma blank_donor_name_is_stored_empty_three_spaces :
  @validateDonationData sample_runtime blank_donor = Ok true
  /\ exists donation,
       Webhook.new_donation blank_donor (at_time 1000 7) = Ok donation
       /\ Donation.donor_name donation = [].
Proof.
  refine (blank_donor_name_is_stored_empty sample_runtime _ (js "   ") 100 (at_time 1000 7)
            _ _ _ _ _ _ _).
  - reflexivity.
  - discriminate.
  - cbn. lia.
  - repeat constructor.
  - reflexivity.
  - lia.
  - reflexivity.
Defined.

(** ** Where stored and delivered donations come from *)

Lemma public_view_mark d : Donations.public_view (mark d) = Donations.public_view d.
Proof. unfold mark. now destruct (Donation.processed d). Qed.

Section ProvenanceFacts.
Context {rt : Runtime}.
Variable env : Env.

(** A submission that changes the store was admissible. *)
Lemma webhook_handler_admission req io st :
  let '(response, st') := Webhook.handler env req io st in
  (exists donation,
     admits env (Submit req io) (Donations.public_view donation)
     /\ donations st'
        = filter (fresh (Webhook.now_sweep io)) (capped (donations st ++ [donation])))
  \/ donations st' = donations st.
Proof.
  unfold Webhook.handler.
  destruct (str_eqb (Webhook.method req) (js "OPTIONS")); [now right|].
  destruct (str_eqb (Webhook.method req) (js "POST")) eqn:Hpost; cbn [negb]; [|now right].
  apply bool_decide_eq_true in Hpost.
  pose proof (checkRateLimit_frame (client_ip req) (Webhook.now_limit io) st) as Hframe.
  unfold Webhook.handle. fold (client_ip req) (presented_signature req).
  fold (signature_verdict env req).
  destruct (Webhook.checkRateLimit (client_ip req) (Webhook.now_limit io) st)
    as [allowed st1].
  cbn [snd] in Hframe. destruct Hframe as (Hd & _).
  destruct allowed; cbn [negb]; [|now right].
  destruct (signature_verdict env req) as [[|]|e] eqn:Hsig; [|now right..].
  destruct (validateDonationData (Webhook.body req)) as [[|]|e] eqn:Hvalid; [|now right..].
  destruct (Webhook.donation_key (Webhook.body req) (Webhook.now_key io)) as [key|e];
    [|now right].
  unfold Webhook.isDuplicate.
  destruct (bool_decide (key ∈ recentDonationIds st1)); [now right|].
  destruct (Webhook.new_donation (Webhook.body req) io) as [donation|e] eqn:Hnew;
    [|now right].
  left. exists donation. split.
  - cbn [admits]. repeat split; try assumption. now exists donation.
  - rewrite donations_store_donation. cbn [donations set_recentDonationIds].
    now rewrite Hd.
Qed.

Lemma run_provenance (P : PublicDonation -> Prop) evs st :
  Forall (fun d => P (Donations.public_view d)) (donations st) ->
  (forall ev p, ev ∈ evs -> admits env ev p -> P p) ->
  let '(responses, st') := run env st evs in
  Forall (fun d => P (Donations.public_view d)) (donations st')
  /\ Forall (fun response => Forall P (delivered response)) responses.
Proof.
  revert st. induction evs as [|ev evs IH]; intros st Hstore Hadmits.
  { split; [exact Hstore | constructor]. }
  cbn [run].
  assert (Hstep : let '(response, st1) := step env st ev in
                  Forall (fun d => P (Donations.public_view d)) (donations st1)
                  /\ Forall P (delivered response)).
  { destruct ev as [req io|req now|key].
    - pose proof (step_store env st (Submit req io)) as Hs.
      pose proof (webhook_handler_admission req io st) as Ha.
      cbn [step] in *.
      destruct (Webhook.handler env req io st) as [response st1].
      destruct Hs as [Hnone _]. rewrite Hnone. split; [|constructor].
      destruct Ha as [(donation & Hadm & ->)| ->]; [|exact Hstore].
      apply Forall_forall. intros d Hd.
      pose proof (elem_of_sublist _ _ _ Hd (new_store_sublist _ _)) as Hd'.
      apply elem_of_app in Hd' as [Hold|Hnew].
      + rewrite Forall_forall in Hstore. now apply Hstore.
      + apply list_elem_of_singleton in Hnew as ->.
        apply (Hadmits (Submit req io)); [left | exact Hadm].
    - pose proof (step_store env st (Poll req now)) as Hs.
      destruct (step env st (Poll req now)) as [response st1].
      destruct Hs as [[-> ->]|[-> ->]]; [|split; [exact Hstore | constructor]].
      split.
      + rewrite Forall_forall in Hstore. apply Forall_forall. intros d Hd.
        apply list_elem_of_fmap in Hd as [d0 [-> Hd0]].
        rewrite public_view_mark. now apply Hstore.
      + rewrite Forall_forall in Hstore. apply Forall_forall. intros p Hp.
        apply list_elem_of_fmap in Hp as [d [-> Hd]].
        apply Hstore. now apply list_elem_of_filter in Hd as [_ Hd].
    - pose proof (step_store env st (Timeout key)) as Hs.
      destruct (step env st (Timeout key)) as [response st1].
      destruct Hs as [-> ->]. split; [exact Hstore | constructor]. }
  destruct (step env st ev) as [response st1]. destruct Hstep as [Hstore1 Hdelivered].
  specialize (IH st1 Hstore1).
  destruct (run env st1 evs) as [responses st2].
  destruct IH as [IH1 IH2].
  { intros ev' p Hev. apply Hadmits. now right. }
  split; [exact IH1 | now constructor].
Qed.

End ProvenanceFacts.

(** X8: whatever is submitted and retrieved, every donation in the store and
    every donation delivered to the consumer was created by a submission of
    the run that was a POST, passed the signature step and was accepted by
    the validator; it is therefore in sanitized form. *)
Theorem stored_and_delivered_were_admitted (rt : Runtime) (env : Env) (evs : list Event) :
  let admitted p := sanitized p /\ exists ev, ev ∈ evs /\ admits env ev p in
  Forall (fun d => admitted (Donations.public_view d))
    (donations (snd (run env initial_state evs)))
  /\ Forall (fun response => Forall admitted (delivered response))
       (fst (run env initial_state evs)).
Proof.
  intros admitted.
  pose proof (run_provenance env admitted evs initial_state) as H.
  destruct (run env initial_state evs) as [responses st]. apply H; [constructor|].
  intros ev p Hev Hadm. split; [|now exists ev].
  destruct ev as [req io| |]; try contradiction.
  destruct Hadm as (_ & _ & Hvalid & donation & Hnew & ->).
  exact (new_donation_sanitized _ _ _ Hvalid Hnew).
Qed.
(** ** The answer 500 *)

Section InternalErrorFacts.
Context {rt : Runtime}.

Lemma internal_error_cases (env : Env) req io st :
  let '(response, st') := Webhook.handler env req io st in
  (status response = 500 <->
   Webhook.method req = js "POST"
   /\ fst (Webhook.checkRateLimit (client_ip req) (Webhook.now_limit io) st) = true
   /\ ((exists e, signature_verdict env req = Throw e)
       \/ (signature_verdict env req = Ok true
           /\ validateDonationData (Webhook.body req) = Ok true
           /\ (exists key,
                 Webhook.donation_key (Webhook.body req) (Webhook.now_key io) = Ok key
                 /\ key ∉ recentDonationIds st)
           /\ truthy (field (Webhook.body req) "message") = true
           /\ is_string (field (Webhook.body req) "message") = false)))
  /\ (status response = 500 -> donations st' = donations st).
Proof.
  unfold Webhook.handler.
  destruct (str_eqb (Webhook.method req) (js "OPTIONS")) eqn:Hoptions.
  { apply bool_decide_eq_true in Hoptions. cbn [status]. split; [|discriminate].
    split; [discriminate|]. intros [Hpost _]. rewrite Hpost in Hoptions.
    apply js_inj in Hoptions. discriminate. }
  destruct (str_eqb (Webhook.method req) (js "POST")) eqn:Hpost; cbn [negb].
  2:{ apply bool_decide_eq_false in Hpost. cbn [status]. split; [|discriminate].
      split; [discriminate|]. now intros [H _]. }
  apply bool_decide_eq_true in Hpost.
  pose proof (checkRateLimit_frame (client_ip req) (Webhook.now_limit io) st) as Hframe.
  unfold Webhook.handle. fold (client_ip req) (presented_signature req).
  fold (signature_verdict env req).
  destruct (Webhook.checkRateLimit (client_ip req) (Webhook.now_limit io) st)
    as [allowed st1].
  cbn [fst snd] in *. destruct Hframe as (Hd & Hr & _).
  destruct allowed; cbn [negb status].
  2:{ split; [|discriminate]. split; [discriminate|]. intros (_ & H & _). discriminate. }
  destruct (signature_verdict env req) as [[|]|e] eqn:Hsig; cbn [status].
  - destruct (validateDonationData_total (Webhook.body req)) as [[|] Hvalid];
      rewrite Hvalid; cbn [status].
    + destruct (validated_key _ (Webhook.now_key io) Hvalid) as [key Hkey]. rewrite Hkey.
      destruct (new_donation_validated (Webhook.body req) io Hvalid)
        as (name & z & _ & _ & _ & _ & _ & _ & _ & Hnew).
      destruct (decide (key ∈ recentDonationIds st1)) as [Hin|Hnotin].
      * rewrite (isDuplicate_seen _ _ Hin). cbn [status]. split; [|discriminate].
        split; [discriminate|].
        intros (_ & _ & [[e He]|(_ & _ & (key' & [= <-] & Hfresh) & _)]); [discriminate|].
        rewrite Hr in Hin. contradiction.
      * rewrite (isDuplicate_new _ _ Hnotin), Hnew.
        destruct (truthy (field (Webhook.body req) "message")) eqn:Htruthy;
          [destruct (is_string (field (Webhook.body req) "message")) eqn:Hstring|];
          cbn [andb negb status].
        -- split; [|discriminate]. split; [discriminate|].
           intros (_ & _ & [[e He]|(_ & _ & _ & _ & H)]); discriminate.
        -- split; [|intros _; exact Hd]. split; [|reflexivity]. intros _.
           repeat split; try assumption. right. repeat split; try reflexivity.
           exists key. split; [reflexivity|]. now rewrite <- Hr.
        -- split; [|discriminate]. split; [discriminate|].
           intros (_ & _ & [[e He]|(_ & _ & _ & H & _)]); discriminate.
    + split; [|discriminate]. split; [discriminate|].
      intros (_ & _ & [[e He]|(_ & H & _)]); discriminate.
  - split; [|discriminate]. split; [discriminate|].
    intros (_ & _ & [[e He]|(H & _)]); discriminate.
  - split; [|intros _; exact Hd]. split; [|reflexivity]. intros _.
    repeat split; try assumption. left. now exists e.
Qed.

End InternalErrorFacts.

(** X9: a submission is answered 500 exactly when it is a POST that the rate
    limiter lets through and either the signature verifier throws, or the
    submission passes the signature step, the validator and the duplicate
    check and its message is a truthy value that is not a string.  The store
    is then as before. *)
Theorem internal_error_iff
    (rt : Runtime) (env : Env) (req : Webhook.Request) (io : Webhook.Readings) (st : State) :
  let response := fst (Webhook.handler env req io st) in
  let st' := snd (Webhook.handler env req io st) in
  (status response = 500 <->
   Webhook.method req = js "POST"
   /\ fst (Webhook.checkRateLimit (client_ip req) (Webhook.now_limit io) st) = true
   /\ ((exists e, signature_verdict env req = Throw e)
       \/ (signature_verdict env req = Ok true
           /\ validateDonationData (Webhook.body req) = Ok true
           /\ (exists key,
                 Webhook.donation_key (Webhook.body req) (Webhook.now_key io) = Ok key
                 /\ key ∉ recentDonationIds st)
           /\ truthy (field (Webhook.body req) "message") = true
           /\ is_string (field (Webhook.body req) "message") = false)))
  /\ (status response = 500 -> donations st' = donations st).
Proof.
  pose proof (internal_error_cases env req io st) as H.
  destruct (Webhook.handler env req io st) as [response st']. exact H.
Qed.

Example numeric_message_is_answered_500 :
  let '(response, st) :=
    @Webhook.handler sample_runtime env_without_secret
      (post "10.0.0.1" None alice_numeric_message) (at_time 1000 7) initial_state in
  @validateDonationData sample_runtime alice_numeric_message = Ok true
  /\ response = internal_server_error
  /\ donations st = []
  /\ pendingTimeouts st = [js "Alice_5000_1000"].
Proof. vm_compute. repeat split. Qed.
(** ** Duplicate keys and their timers *)

Section DuplicateFacts.
Context {rt : Runtime}.
Variable env : Env.

(** What a submission does to the duplicate set and the pending timers. *)
Lemma webhook_handler_keys req io st :
  let st' := snd (Webhook.handler env req io st) in
  (recentDonationIds st' = recentDonationIds st
   /\ pendingTimeouts st' = pendingTimeouts st)
  \/ exists key,
       (key ∉ recentDonationIds st)
       /\ recentDonationIds st' = {[key]} ∪ recentDonationIds st
       /\ pendingTimeouts st' = pendingTimeouts st ++ [key].
Proof.
  unfold Webhook.handler.
  destruct (str_eqb (Webhook.method req) (js "OPTIONS")); [now left|].
  destruct (negb (str_eqb (Webhook.method req) (js "POST"))); [now left|].
  pose proof (checkRateLimit_frame (client_ip req) (Webhook.now_limit io) st) as Hframe.
  unfold Webhook.handle. fold (client_ip req) (presented_signature req).
  fold (signature_verdict env req).
  destruct (Webhook.checkRateLimit (client_ip req) (Webhook.now_limit io) st)
    as [allowed st1].
  cbn [snd] in Hframe. destruct Hframe as (_ & Hr & Hp & _).
  destruct allowed; cbn [negb snd]; [|now left].
  destruct (signature_verdict env req) as [[|]|e]; cbn [snd]; [|now left..].
  destruct (validateDonationData (Webhook.body req)) as [[|]|e]; cbn [snd]; [|now left..].
  destruct (Webhook.donation_key (Webhook.body req) (Webhook.now_key io)) as [key|e];
    cbn [snd]; [|now left].
  destruct (decide (key ∈ recentDonationIds st1)) as [Hin|Hnotin].
  { rewrite (isDuplicate_seen _ _ Hin). now left. }
  rewrite (isDuplicate_new _ _ Hnotin). right. exists key.
  split; [now rewrite <- Hr|].
  destruct (Webhook.new_donation (Webhook.body req) io) as [donation|e]; cbn [snd].
  - destruct (store_donation_frame donation (Webhook.now_sweep io) (record_key key st1))
      as (_ & Hr' & Hp' & _).
    rewrite Hr', Hp'. unfold record_key. cbn [recentDonationIds pendingTimeouts
      set_recentDonationIds]. now rewrite Hr, Hp.
  - unfold record_key. cbn [recentDonationIds pendingTimeouts set_recentDonationIds].
    now rewrite Hr, Hp.
Qed.

Lemma step_keys st ev :
  NoDup (pendingTimeouts st) ->
  (forall key, key ∈ recentDonationIds st <-> key ∈ pendingTimeouts st) ->
  let st' := snd (step env st ev) in
  NoDup (pendingTimeouts st')
  /\ forall key, key ∈ recentDonationIds st' <-> key ∈ pendingTimeouts st'.
Proof.
  intros Hnodup Hsame. destruct ev as [req io|req now|id]; cbn [step].
  - pose proof (webhook_handler_keys req io st) as H.
    destruct (Webhook.handler env req io st) as [response st']. cbn [snd] in *.
    destruct H as [[-> ->]|(key & Hnew & -> & ->)]; [now split|].
    split.
    + apply NoDup_app. split; [exact Hnodup|]. split; [|apply NoDup_singleton].
      intros k Hk Hk'. apply list_elem_of_singleton in Hk' as ->.
      now apply Hsame in Hk.
    + intros k. rewrite elem_of_union, elem_of_singleton, elem_of_app,
        list_elem_of_singleton, Hsame. tauto.
  - pose proof (donations_handler_limiter env req now st) as H.
    destruct (Donations.handler env req now st) as [response st']. cbn [snd].
    destruct H as (_ & -> & -> & _). now split.
  - cbn [snd]. destruct (decide (id ∈ pendingTimeouts st)) as [Hin|Hnotin].
    + rewrite bool_decide_eq_true_2 by exact Hin.
      unfold Webhook.timeout_callback.
      cbn [recentDonationIds pendingTimeouts set_recentDonationIds].
      assert (Hfilter : forall k,
                 k ∈ List.filter (fun k => negb (str_eqb k id)) (pendingTimeouts st)
                 <-> k ∈ pendingTimeouts st /\ k <> id).
      { intros k. rewrite !list_elem_of_In, filter_In, negb_true_iff.
        unfold str_eqb. rewrite bool_decide_eq_false. reflexivity. }
      split; [now apply NoDup_ListNoDup, List.NoDup_filter, NoDup_ListNoDup|].
      intros k. rewrite Hfilter, elem_of_difference, elem_of_singleton, Hsame. tauto.
    + rewrite bool_decide_eq_false_2 by exact Hnotin. now split.
Qed.

Lemma run_keys evs st :
  NoDup (pendingTimeouts st) ->
  (forall key, key ∈ recentDonationIds st <-> key ∈ pendingTimeouts st) ->
  let st' := snd (run env st evs) in
  NoDup (pendingTimeouts st')
  /\ forall key, key ∈ recentDonationIds st' <-> key ∈ pendingTimeouts st'.
Proof.
  revert st. induction evs as [|ev evs IH]; intros st Hnodup Hsame; [now split|].
  cbn [run]. pose proof (step_keys st ev Hnodup Hsame) as [H1 H2].
  destruct (step env st ev) as [response st1]. cbn [snd] in H1, H2.
  specialize (IH st1 H1 H2). destruct (run env st1 evs) as [responses st2]. exact IH.
Qed.

End DuplicateFacts.

(** X10: whatever is submitted and retrieved and whichever timers have fired,
    the keys in the duplicate set are the keys with a deletion timer
    pending, and no key has two timers pending. *)
Theorem duplicate_keys_have_one_timer (rt : Runtime) (env : Env) (evs : list Event) :
  let st := snd (run env initial_state evs) in
  NoDup (pendingTimeouts st)
  /\ forall key, key ∈ recentDonationIds st <-> key ∈ pendingTimeouts st.
Proof.
  apply run_keys; [constructor|]. intros key. cbn. set_solver.
Qed.

(** ** Duplicate keys and storage identifiers are unambiguous *)






Lemma hex_digit_inj d1 d2 :
  (d1 < 16)%N -> (d2 < 16)%N -> hex_digit d1 = hex_digit d2 -> d1 = d2.
Proof.
  unfold hex_digit. destruct (N.ltb_spec d1 10), (N.ltb_spec d2 10); lia.
Qed.

Lemma hex_inj width n1 n2 :
  (n1 < 16 ^ N.of_nat width)%N -> (n2 < 16 ^ N.of_nat width)%N ->
  hex width n1 = hex width n2 -> n1 = n2.
Proof.
  revert n1 n2. induction width as [|w IH]; intros n1 n2 H1 H2 H.
  - cbn in H1, H2. lia.
  - cbn [hex] in H. apply app_inj_tail in H as [Hhigh Hlow].
    rewrite Nat2N.inj_succ, N.pow_succ_r' in H1, H2.
    apply hex_digit_inj in Hlow; [|apply N.mod_lt; lia..].
    apply IH in Hhigh; [|apply N.Div0.div_lt_upper_bound; lia..].
    rewrite (N.div_mod n1 16), (N.div_mod n2 16) by lia. now rewrite Hhigh, Hlow.
Qed.

Section KeyFacts.
Context {rt : Runtime}.


End KeyFacts.



(** X12: two storage identifiers are equal only if the sixteen random bytes they
    render are equal. *)
Theorem issued_id_is_unambiguous (io1 io2 : Webhook.Readings) :
  issued_id io1 = issued_id io2 <->
  (Webhook.randomBytes io1 mod 2 ^ 128 = Webhook.randomBytes io2 mod 2 ^ 128)%N.
Proof.
  unfold issued_id. split; [|now intros ->].
  apply hex_inj; apply N.mod_lt; discriminate.
Qed.
